(** * Code-Gym: membership dates, revenue buckets and workout-plan validation

    A shallow embedding of the three pieces of domain logic of the gym
    manager (Flask blueprints [cashier], [reception], [admin] and [trainer],
    and the [SystemConfig] model), with the properties the specification
    states about them.

    Conventions.
    - Python [int] is [Z]; [//] and [%] with a positive divisor are [Z.div]
      and [Z.modulo] (both round towards minus infinity).
    - An exception is a value of [exn]; a computation that may raise has
      type [result A].
    - [datetime.date] is the record [date]; the checked constructor
      [date_new] raises [ValueError] exactly where [date(y, m, d)] does.
    - Form fields and messages are Python [str] values, modelled as
      [string] (the UTF-8 bytes of the text); the character tables
      ([isspace], [isdigit], [lower]) are those of the ASCII range, and a
      byte above it counts as a caseless character that is neither a
      space nor a digit.
    - A table with a unique key ([SystemConfig], [Member], [Exercise]) is
      a [gmap]; a table that only grows is a list. *)

From Stdlib Require Import ZArith Lia Ascii Floats.
From stdpp Require Import base numbers option list sorting strings gmap pretty.

(** ** Exceptions *)

Inductive exn : Type :=
| ValueError
| IndexError
| TypeError.

Inductive result (A : Type) : Type :=
| Ok (a : A)
| Raise (e : exn).

Arguments Ok {A} a.
Arguments Raise {A} e.

Definition rbind {A B : Type} (r : result A) (k : A -> result B) : result B :=
  match r with
  | Ok a => k a
  | Raise e => Raise e
  end.

Notation "'try!' x := r 'in' k" := (rbind r (fun x => k))
  (at level 10, x name, r at level 100, k at level 200,
   format "'[v' 'try!'  x  :=  r  'in' '/' k ']'").

(** ** The standard library's [calendar] and [datetime.date] *)

Module Calendar.
Local Open Scope Z_scope.

(** [calendar.isleap] *)
Definition isleap (year : Z) : bool :=
  (year mod 4 =? 0) && (negb (year mod 100 =? 0) || (year mod 400 =? 0)).

(** [calendar.mdays], indexed by month number. *)
Definition mdays (month : Z) : Z :=
  match month with
  | 1 => 31 | 2 => 28 | 3 => 31 | 4 => 30 | 5 => 31 | 6 => 30
  | 7 => 31 | 8 => 31 | 9 => 30 | 10 => 31 | 11 => 30 | 12 => 31
  | _ => 0
  end.

(** [calendar.monthrange(year, month)[1]]: the number of days of the
    month; an illegal month raises (a subclass of) [ValueError]. *)
Definition monthrange_days (year month : Z) : result Z :=
  if (1 <=? month) && (month <=? 12)
  then Ok (mdays month + (if (month =? 2) && isleap year then 1 else 0))
  else Raise ValueError.
End Calendar.

Module Datetime.
Local Open Scope Z_scope.

Record date : Type := mkdate { year : Z; month : Z; day : Z }.

Definition MINYEAR : Z := 1.
Definition MAXYEAR : Z := 9999.

(** [datetime._days_in_month], only called with a month in 1..12. *)
Definition days_in_month (y m : Z) : Z :=
  if (m =? 2) && Calendar.isleap y then 29 else Calendar.mdays m.

(** [datetime._check_date_fields] *)
Definition check_date_fields (y m d : Z) : bool :=
  (MINYEAR <=? y) && (y <=? MAXYEAR)
  && (1 <=? m) && (m <=? 12)
  && (1 <=? d) && (d <=? days_in_month y m).

(** [date(y, m, d)] *)
Definition date_new (y m d : Z) : result date :=
  if check_date_fields y m d then Ok (mkdate y m d) else Raise ValueError.

(** Every [date] object that exists at run time went through
    [date_new]. *)
Definition valid_date (d : date) : bool :=
  check_date_fields (year d) (month d) (day d).

(** Comparison of dates is comparison of [(year, month, day)]. *)
Definition date_ltb (a b : date) : bool :=
  (year a <? year b)
  || ((year a =? year b)
      && ((month a <? month b)
          || ((month a =? month b) && (day a <? day b)))).

Definition date_eqb (a b : date) : bool :=
  (year a =? year b) && (month a =? month b) && (day a =? day b).

(** [a <= b] *)
Definition date_leb (a b : date) : bool := date_ltb a b || date_eqb a b.

(** [a >= b] *)
Definition date_geb (a b : date) : bool := date_leb b a.

(** A [datetime] carries a date and a time of day (microseconds since
    midnight); [.date()] projects the first. *)
Record datetime : Type := mkdatetime { dt_date : date; dt_time : Z }.
End Datetime.

Export Datetime.

(** ** [dateutil.relativedelta], restricted to [relativedelta(months=n)]

    The registration flow relies on python-dateutil, a library outside
    the repository; the definitions below follow its constructor (with
    [_fix]) and its [__add__]. *)

Module Relativedelta.
Local Open Scope Z_scope.

Record relativedelta : Type := mkrd { years : Z; months : Z }.

(** [_sign] *)
Definition sign (x : Z) : Z := if x <? 0 then -1 else 1.

(** [relativedelta(months=n)]: the constructor stores [n] and calls
    [_fix], which carries whole years out of the month count. *)
Definition of_months (n : Z) : relativedelta :=
  if Z.abs n >? 11 then
    let s := sign n in
    let q := (n * s) / 12 in
    let r := (n * s) mod 12 in
    {| years := q * s; months := r * s |}
  else {| years := 0; months := n |}.

(** The year and month that [other + rd] reaches: the years are added,
    then the months with at most one carry (the constructor left
    [months] between -11 and 11). *)
Definition carry (other : date) (rd : relativedelta) : Z * Z :=
  let y := year other + years rd in
  let m := month other in
  if months rd =? 0 then (y, m)
  else
    let m := m + months rd in
    if m >? 12 then (y + 1, m - 12)
    else if m <? 1 then (y - 1, m + 12)
    else (y, m).

(** [other + rd] for a date (or the date part of a datetime): the day is
    clamped with [calendar.monthrange], then [other.replace(...)]
    builds the result. *)
Definition add (other : date) (rd : relativedelta) : result date :=
  let '(y, m) := carry other rd in
  try! ndays := Calendar.monthrange_days y m in
  date_new y m (Z.min ndays (day other)).
End Relativedelta.

(** ** The columns of [Member] and [Package] that the logic reads or writes *)

Module Models.
Record Member : Type := mkMember { member_id : Z; active_until : option date }.

Record Package : Type := mkPackage {
  package_name : string;
  duration_months : Z;
  price : float;
  package_description : option string
}.
End Models.

Export Models.

(** ** Cashier blueprint: extending a membership *)

Module Cashier.
Local Open Scope Z_scope.

(** [_add_months(start_date, months)] *)
Definition _add_months (start_date : date) (months : Z) : result date :=
  let month_index := month start_date - 1 + months in
  let year := Datetime.year start_date + month_index / 12 in
  let month := month_index mod 12 + 1 in
  try! ndays := Calendar.monthrange_days year month in
  let day := Z.min (day start_date) ndays in
  date_new year month day.

(** The anchor of [payment]:
    [member.active_until if member.active_until and
     member.active_until >= today else today].
    A [date] object is always truthy, so the first test is presence. *)
Definition base_date (today : date) (active_until : option date) : date :=
  match active_until with
  | Some au => if date_geb au today then au else today
  | None => today
  end.

(** The value [payment] assigns to [member.active_until]. *)
Definition new_active_until (today : date) (member : Member) (package : Package)
  : result date :=
  _add_months (base_date today (active_until member)) (duration_months package).

(** The POST branch of [payment] once member and package are resolved,
    as far as the member row goes (the invoice added alongside carries
    no date logic): the member is updated and committed; when
    [_add_months] raises, the commit is never reached and the stored
    member is what it was. *)
Definition payment (today : date) (package : Package) (member : Member)
  : result Member :=
  try! d := new_active_until today member package in
  Ok {| member_id := member_id member; active_until := Some d |}.

(** The member row after a payment request, whether it committed or not. *)
Definition member_after (today : date) (package : Package) (member : Member)
  : Member :=
  match payment today package member with
  | Ok member' => member'
  | Raise _ => member
  end.

(** Successive payment requests, each with its own clock reading. *)
Definition payments (events : list (date * Package)) (member : Member) : Member :=
  fold_left (fun m ev => member_after (fst ev) (snd ev) m) events member.
End Cashier.

(** ** Reception blueprint: the first activation *)

Module Reception.
(** [(registration_date + relativedelta(months=n)).date()] in [register]. *)
Definition register_active_until (registration_date : datetime) (duration_months : Z)
  : result date :=
  Relativedelta.add (dt_date registration_date) (Relativedelta.of_months duration_months).
End Reception.

(** ** The specification's reading of a membership extension *)

Module MembershipSpec.
Local Open Scope Z_scope.

(** Gregorian leap years. *)
Definition leap_year (y : Z) : bool :=
  if y mod 400 =? 0 then true
  else if y mod 100 =? 0 then false
  else y mod 4 =? 0.

(** The last valid day of a calendar month. *)
Definition last_day_of_month (y m : Z) : Z :=
  match m with
  | 2 => if leap_year y then 29 else 28
  | 4 | 6 | 9 | 11 => 30
  | _ => 31
  end.

(** One calendar month later: December rolls over into January. *)
Definition next_month (ym : Z * Z) : Z * Z :=
  let '(y, m) := ym in
  if m =? 12 then (y + 1, 1) else (y, m + 1).

(** [d] advanced by [n] calendar months, the day of the month clamped
    to the last valid day of the month reached. *)
Definition advance (d : date) (n : nat) : date :=
  let '(y, m) := Nat.iter n next_month (year d, month d) in
  mkdate y m (Z.min (day d) (last_day_of_month y m)).

(** The anchor: the current expiry when there is one and it is not
    before today, today otherwise. *)
Definition anchor (today : date) (active_until : option date) : date :=
  match active_until with
  | Some au => if date_leb today au then au else today
  | None => today
  end.
End MembershipSpec.

(** ** Python [str] methods used by the form handlers *)

Module PyStr.
Definition code (c : ascii) : nat := nat_of_ascii c.

(** [str.isspace] on one character: TAB..CR, FS..US and the space. *)
Definition is_space (c : ascii) : bool :=
  let n := code c in
  ((9 <=? n) && (n <=? 13)) || ((28 <=? n) && (n <=? 32)).

Definition is_digit (c : ascii) : bool :=
  let n := code c in (48 <=? n) && (n <=? 57).

Definition digit_value (c : ascii) : Z := Z.of_nat (code c - 48).

Definition lower_char (c : ascii) : ascii :=
  let n := code c in
  if (65 <=? n) && (n <=? 90) then ascii_of_nat (n + 32) else c.

(** [s.lower()] *)
Fixpoint lower (s : string) : string :=
  match s with
  | EmptyString => EmptyString
  | String c s' => String (lower_char c) (lower s')
  end.

(** [s.lstrip()] *)
Fixpoint lstrip (s : string) : string :=
  match s with
  | EmptyString => EmptyString
  | String c s' => if is_space c then lstrip s' else s
  end.

(** [s.rstrip()]: a character is kept when something that is not a
    space follows it or it is not a space itself. *)
Fixpoint rstrip (s : string) : string :=
  match s with
  | EmptyString => EmptyString
  | String c s' =>
      match rstrip s' with
      | EmptyString => if is_space c then EmptyString else String c EmptyString
      | t => String c t
      end
  end.

(** [s.strip()] *)
Definition strip (s : string) : string := rstrip (lstrip s).

(** [s.split(sep)] for a one-character separator: never an empty list. *)
Fixpoint split (sep : ascii) (s : string) : list string :=
  match s with
  | EmptyString => [EmptyString]
  | String c s' =>
      if Stdlib.Strings.Ascii.eqb c sep then EmptyString :: split sep s'
      else match split sep s' with
           | h :: t => String c h :: t
           | [] => [String c EmptyString]
           end
  end.

(** [s.isdigit()]: at least one character, all of them digits. *)
Fixpoint all_digits (s : string) : bool :=
  match s with
  | EmptyString => true
  | String c s' => is_digit c && all_digits s'
  end.

Definition isdigit (s : string) : bool :=
  match s with
  | EmptyString => false
  | _ => all_digits s
  end.

(** Truthiness of a string: [not s] holds of the empty string only. *)
Definition falsy (s : string) : bool :=
  match s with
  | EmptyString => true
  | _ => false
  end.

(** The digit part of an integer literal: digits, single underscores
    allowed between two digits. [pending] says that the previous
    character was an underscore. *)
Fixpoint int_digits (s : string) (acc : Z) (pending : bool) : option Z :=
  match s with
  | EmptyString => if pending then None else Some acc
  | String c s' =>
      if is_digit c then int_digits s' (10 * acc + digit_value c)%Z false
      else if Stdlib.Strings.Ascii.eqb c "_" then
             if pending then None else int_digits s' acc true
      else None
  end.

Definition int_unsigned (s : string) : option Z :=
  match s with
  | EmptyString => None
  | String c _ => if is_digit c then int_digits s 0%Z false else None
  end.

(** An optional sign, then the digit part. *)
Definition int_signed (t : string) : option Z :=
  match t with
  | String "+" r => int_unsigned r
  | String "-" r => Z.opp <$> int_unsigned r
  | _ => int_unsigned t
  end.

(** [int(s)] in base ten: surrounding white space is dropped, one sign
    is allowed, anything else raises [ValueError]. Integers are
    unbounded; the interpreter's optional limit on the number of digits
    is not part of the model. *)
Definition int (s : string) : result Z :=
  match int_signed (strip s) with
  | Some z => Ok z
  | None => Raise ValueError
  end.
End PyStr.

(** ** [SystemConfig]: a table of key/value strings with unique keys *)

Module SystemConfig.
(** [SystemConfig.get_config(key, default)]: the stored value when a
    row with that key exists, the default (possibly [None]) otherwise. *)
Definition get_config (table : gmap string string) (key : string)
    (default : option string) : option string :=
  match table !! key with
  | Some value => Some value
  | None => default
  end.

(** [SystemConfig.set_config(key, value)]: update in place or insert. *)
Definition set_config (table : gmap string string) (key value : string)
  : gmap string string :=
  <[key := value]> table.
End SystemConfig.

(** ** Python list item assignment *)

Module PyList.
(** [l[i] = v]: a negative index counts from the end; an index out of
    range raises [IndexError]. *)
Definition setitem {B : Type} (l : list B) (i : Z) (v : B) : result (list B) :=
  let n := Z.of_nat (length l) in
  if ((0 <=? i) && (i <? n))%Z then Ok (<[Z.to_nat i := v]> l)
  else if ((- n <=? i) && (i <? 0))%Z then Ok (<[Z.to_nat (n + i) := v]> l)
  else Raise IndexError.
End PyList.

(** ** Admin blueprint: monthly revenue and package maintenance *)

Module Admin.

(** An invoice row: the amount and the creation time. The amount type is
    left open: the sum the database computes is exact for a decimal
    column, and for the whole-number prices the application stores it is
    exact in a float column too. *)
Record Invoice (A : Type) : Type := mkInvoice { amount : A; created_at : datetime }.
Arguments mkInvoice {A} _ _.
Arguments amount {A} _.
Arguments created_at {A} _.

Section Revenue.
Context {A : Type} (zero : A) (add : A -> A -> A).

Definition invoice_year (inv : Invoice A) : Z := year (dt_date (created_at inv)).
Definition invoice_month (inv : Invoice A) : Z := month (dt_date (created_at inv)).

(** One more invoice into the rows of
    [GROUP BY month ORDER BY month] with [SUM(amount)]: the groups are
    kept in increasing month order, one row per month. *)
Fixpoint group_add (m : Z) (a : A) (groups : list (Z * A)) : list (Z * A) :=
  match groups with
  | [] => [(m, a)]
  | (k, total) :: rest =>
      if (m <? k)%Z then (m, a) :: groups
      else if (m =? k)%Z then (k, add total a) :: rest
      else (k, total) :: group_add m a rest
  end.

(** The query of [revenue_data]: invoices of the current year, one
    [(month, total)] row per month that has invoices, by month. *)
Definition revenue_query (current_year : Z) (invoices : list (Invoice A))
  : list (Z * A) :=
  fold_left (fun groups inv => group_add (invoice_month inv) (amount inv) groups)
    (filter (fun inv => invoice_year inv = current_year) invoices) [].

(** [for row in results: monthly_totals[int(row.month) - 1] = float(row.total)] *)
Fixpoint fill_totals (results : list (Z * A)) (monthly_totals : list A)
  : result (list A) :=
  match results with
  | [] => Ok monthly_totals
  | (row_month, row_total) :: rest =>
      let month_index := (row_month - 1)%Z in
      try! monthly_totals' := PyList.setitem monthly_totals month_index row_total in
      fill_totals rest monthly_totals'
  end.

(** The ["data"] list of [revenue_data]; [current_year] is
    [datetime.utcnow().year]. *)
Definition revenue_data (current_year : Z) (invoices : list (Invoice A))
  : result (list A) :=
  let monthly_totals := replicate 12 zero in
  let results := revenue_query current_year invoices in
  fill_totals results monthly_totals.
End Revenue.

(** The package form. [pf_duration_months] is the raw field (absent or a
    string), read with [type=int]; [pf_price] is the field as already
    converted by [type=float] ([None] when absent or not a number). *)
Record PackageForm : Type := mkPackageForm {
  pf_name : string;
  pf_duration_months : option string;
  pf_price : option float;
  pf_description : string
}.

(** [request.form.get(key, type=int)]: a missing field and a field that
    [int] rejects both give [None]. *)
Definition form_get_int (raw : option string) : option Z :=
  match raw with
  | None => None
  | Some s => match PyStr.int s with
              | Ok z => Some z
              | Raise _ => None
              end
  end.

Definition msg_name_required : string := "Tên gói tập là bắt buộc.".
Definition msg_duration_min : string := "Thời hạn phải ít nhất 1 tháng.".
Definition msg_price_positive : string := "Giá phải là số dương.".

(** [description if description else None] *)
Definition optional_text (s : string) : option string :=
  if PyStr.falsy s then None else Some s.

(** [create_package]: the package table after the request and the
    message flashed. [not duration_months] holds of [None] and of 0,
    [not price] of [None] and of a zero. *)
Definition create_package (packages : list Package) (form : PackageForm)
  : list Package * (string * string) :=
  let name := PyStr.strip (pf_name form) in
  let duration_months := form_get_int (pf_duration_months form) in
  let price := pf_price form in
  let description := PyStr.strip (pf_description form) in
  if PyStr.falsy name then (packages, (msg_name_required, "danger"))
  else
    match duration_months with
    | None => (packages, (msg_duration_min, "danger"))
    | Some d =>
        if ((d =? 0) || (d <? 1))%Z then (packages, (msg_duration_min, "danger"))
        else
          match price with
          | None => (packages, (msg_price_positive, "danger"))
          | Some p =>
              if PrimFloat.eqb p 0%float || PrimFloat.ltb p 0%float
              then (packages, (msg_price_positive, "danger"))
              else
                (packages ++ [mkPackage name d p (optional_text description)],
                 ("Tạo gói tập '" +:+ name +:+ "' thành công.", "success"))
          end
    end.

(** [update_package] on the package stored at position [i]. *)
Definition update_package (packages : list Package) (i : nat) (form : PackageForm)
  : list Package * (string * string) :=
  let name := PyStr.strip (pf_name form) in
  let duration_months := form_get_int (pf_duration_months form) in
  let price := pf_price form in
  let description := PyStr.strip (pf_description form) in
  if PyStr.falsy name then (packages, (msg_name_required, "danger"))
  else
    match duration_months with
    | None => (packages, (msg_duration_min, "danger"))
    | Some d =>
        if ((d =? 0) || (d <? 1))%Z then (packages, (msg_duration_min, "danger"))
        else
          match price with
          | None => (packages, (msg_price_positive, "danger"))
          | Some p =>
              if PrimFloat.eqb p 0%float || PrimFloat.ltb p 0%float
              then (packages, (msg_price_positive, "danger"))
              else
                (<[i := mkPackage name d p (optional_text description)]> packages,
                 ("Cập nhật gói tập '" +:+ name +:+ "' thành công.", "success"))
          end
    end.
End Admin.

(** ** Trainer blueprint: creating a workout plan *)

Module Trainer.

Record Exercise : Type := mkExercise { exercise_name : string }.

Record WorkoutDetail : Type := mkWorkoutDetail {
  wd_exercise_id : Z;
  wd_sets : Z;
  wd_reps : string;
  wd_schedule_day : string
}.

Record WorkoutPlan : Type := mkWorkoutPlan {
  wp_member_id : Z;
  wp_trainer_id : Z;
  wp_notes : string;
  workout_details : list WorkoutDetail
}.

(** The tables [create_plan] reads or writes. *)
Record DB : Type := mkDB {
  members : gmap Z Member;
  exercises : gmap Z Exercise;
  system_config : gmap string string;
  workout_plans : list WorkoutPlan
}.

(** The submitted form: [notes] and the four parallel lists. *)
Record PlanForm : Type := mkPlanForm {
  notes : string;
  exercise_ids : list string;
  sets_list : list string;
  reps_list : list string;
  schedule_days : list string
}.

Inductive Method : Type := GET | POST.

Inductive Response : Type :=
| Redirect (endpoint : string)
| Render (template : string).

Definition Row : Type := (string * string * string * string)%type.

(** [zip(exercise_ids, sets_list, reps_list, schedule_days)]: stops at
    the shortest list. *)
Fixpoint zip4 (a b c d : list string) : list Row :=
  match a, b, c, d with
  | x :: a', y :: b', z :: c', w :: d' => (x, y, z, w) :: zip4 a' b' c' d'
  | _, _, _, _ => []
  end.

Definition msg_add_exercise : string := "Vui lòng thêm ít nhất một bài tập.".
Definition msg_row_incomplete : string := "Vui lòng điền đầy đủ thông tin cho mỗi bài tập.".
Definition msg_exercise_not_found : string := "Không tìm thấy bài tập.".
Definition msg_sets_not_number : string := "Số hiệp phải là số hợp lệ.".
Definition msg_member_not_found : string := "Không tìm thấy hội viên.".
Definition msg_plan_created : string := "Tạo lịch tập thành công.".

(** The f-string of the day-count error. *)
Definition msg_too_many_days (max_training_days : Z) (n : nat) : string :=
  "Lịch tập vượt quá " +:+ pretty max_training_days
    +:+ " ngày tập tối đa mỗi tuần. "
    +:+ "Bạn đã chọn " +:+ pretty n +:+ " ngày.".

(** The state of the loop over the rows. *)
Record LoopState : Type := mkLoopState {
  errors : list string;
  details : list WorkoutDetail;
  unique_days : gset string
}.

(** [for day in schedule_day.split(","): ...] *)
Definition add_days (schedule_day : string) (unique_days : gset string)
  : gset string :=
  fold_left
    (fun acc day =>
       let day_normalized := PyStr.lower (PyStr.strip day) in
       if PyStr.falsy day_normalized then acc else acc ∪ {[ day_normalized ]})
    (PyStr.split "," schedule_day) unique_days.

(** [db.session.get(Exercise, int(exercise_id)) if exercise_id.isdigit()
    else None] *)
Definition get_exercise (db : DB) (exercise_id : string) : result (option (Z * Exercise)) :=
  if PyStr.isdigit exercise_id then
    try! i := PyStr.int exercise_id in
    Ok (pair i <$> exercises db !! i)
  else Ok None.

Definition add_error (st : LoopState) (message : string) : LoopState :=
  {| errors := errors st ++ [message];
     details := details st;
     unique_days := unique_days st |}.

(** One iteration of the loop body; each [continue] is a branch that
    only records its error. *)
Definition row_step (db : DB) (st : LoopState) (row : Row) : result LoopState :=
  let '(exercise_id, sets_value, reps_value, schedule_day) := row in
  if PyStr.falsy exercise_id || PyStr.falsy sets_value
     || PyStr.falsy reps_value || PyStr.falsy schedule_day
  then Ok (add_error st msg_row_incomplete)
  else
    try! exercise := get_exercise db exercise_id in
    match exercise with
    | None => Ok (add_error st msg_exercise_not_found)
    | Some (ex_id, _) =>
        match PyStr.int sets_value with
        | Raise ValueError => Ok (add_error st msg_sets_not_number)
        | Raise e => Raise e
        | Ok sets_int =>
            Ok {| errors := errors st;
                  details := details st
                    ++ [mkWorkoutDetail ex_id sets_int (PyStr.strip reps_value)
                          (PyStr.strip schedule_day)];
                  unique_days := add_days schedule_day (unique_days st) |}
        end
    end.

Fixpoint for_rows (db : DB) (rows : list Row) (st : LoopState) : result LoopState :=
  match rows with
  | [] => Ok st
  | row :: rest =>
      try! st' := row_step db st row in
      for_rows db rest st'
  end.

(** Lines 111-115: the cap read from the configuration at each call;
    [int] of a missing value would be a [TypeError]. *)
Definition max_training_days (table : gmap string string) : result Z :=
  let max_training_days_str :=
    SystemConfig.get_config table "max_training_days" (Some "6") in
  match max_training_days_str with
  | None => Raise TypeError
  | Some s =>
      match PyStr.int s with
      | Ok n => Ok n
      | Raise ValueError => Ok 6%Z
      | Raise e => Raise e
      end
  end.

Definition danger (messages : list string) : list (string * string) :=
  (fun m => (m, "danger")) <$> messages.

(** [create_plan]: the tables after the request, the messages flashed
    and the response. *)
Definition create_plan (db : DB) (current_user : Z) (method : Method)
    (member_id : Z) (form : PlanForm)
  : result (DB * list (string * string) * Response) :=
  match members db !! member_id with
  | None => Ok (db, [(msg_member_not_found, "danger")], Redirect "trainer.dashboard")
  | Some _ =>
      match method with
      | GET => Ok (db, [], Render "trainer/create_plan.html")
      | POST =>
          let notes := PyStr.strip (notes form) in
          let errors0 := match exercise_ids form with
                         | [] => [msg_add_exercise]
                         | _ => []
                         end in
          let rows := zip4 (exercise_ids form) (sets_list form)
                        (reps_list form) (schedule_days form) in
          try! st := for_rows db rows (mkLoopState errors0 [] ∅) in
          try! cap := max_training_days (system_config db) in
          let n := size (unique_days st) in
          let errors1 := if (cap <? Z.of_nat n)%Z
                         then errors st ++ [msg_too_many_days cap n]
                         else errors st in
          match errors1, details st with
          | [], _ :: _ =>
              let plan := mkWorkoutPlan member_id current_user notes (details st) in
              Ok (mkDB (members db) (exercises db) (system_config db)
                    (workout_plans db ++ [plan]),
                  [(msg_plan_created, "success")],
                  Redirect "trainer.dashboard")
          | [], [] => Ok (db, danger [msg_add_exercise], Render "trainer/create_plan.html")
          | _ :: _, _ => Ok (db, danger errors1, Render "trainer/create_plan.html")
          end
      end
  end.
End Trainer.

(** ** The specification's reading of the revenue buckets *)

Module RevenueSpec.
Section Spec.
Context {A : Type} (zero : A) (add : A -> A -> A).

(** The timestamp of the invoice falls in month [m] of year [y]. *)
Definition in_month (y m : Z) (inv : Admin.Invoice A) : Prop :=
  Admin.invoice_month inv = m /\ Admin.invoice_year inv = y.

#[global] Instance in_month_dec y m inv : Decision (in_month y m inv).
Proof. unfold in_month. apply _. Defined.

(** The sum of the amounts of exactly those invoices. *)
Definition month_total (y m : Z) (invoices : list (Admin.Invoice A)) : A :=
  foldr add zero (Admin.amount <$> filter (in_month y m) invoices).

(** The total a month has among the rows of the grouped query, if the
    month has a row. *)
Fixpoint group_total (m : Z) (groups : list (Z * A)) : option A :=
  match groups with
  | [] => None
  | (k, total) :: rest => if (k =? m)%Z then Some total else group_total m rest
  end.
End Spec.
End RevenueSpec.

(** ** The specification's reading of plan validation, row by row *)

Module PlanSpec.
Import Trainer.

(** The exercise a reference resolves to: the reference is a digit
    string and an exercise with that number exists. *)
Definition resolve (db : DB) (exercise_id : string) : option Z :=
  if PyStr.isdigit exercise_id then
    match PyStr.int exercise_id with
    | Ok i => match exercises db !! i with
              | Some _ => Some i
              | None => None
              end
    | Raise _ => None
    end
  else None.

(** The set count, when the field is an integer. *)
Definition set_count (sets_value : string) : option Z :=
  match PyStr.int sets_value with
  | Ok z => Some z
  | Raise _ => None
  end.

(** The day tokens of a day field: split at commas, trimmed and
    lowercased, empty tokens dropped. *)
Definition day_tokens (schedule_day : string) : list string :=
  filter (fun t => t <> EmptyString)
    ((fun day => PyStr.lower (PyStr.strip day)) <$> PyStr.split "," schedule_day).

(** The row-level error of a row: the first requirement it fails. *)
Definition row_error (db : DB) (row : Row) : option string :=
  let '(exercise_id, sets_value, reps_value, schedule_day) := row in
  if decide (exercise_id = EmptyString \/ sets_value = EmptyString
             \/ reps_value = EmptyString \/ schedule_day = EmptyString)
  then Some msg_row_incomplete
  else match resolve db exercise_id with
       | None => Some msg_exercise_not_found
       | Some _ =>
           match set_count sets_value with
           | None => Some msg_sets_not_number
           | Some _ => None
           end
       end.

(** A row is valid when it has no row-level error. *)
Definition row_valid (db : DB) (row : Row) : bool :=
  match row_error db row with
  | None => true
  | Some _ => false
  end.

(** The detail a valid row becomes. *)
Definition row_detail (db : DB) (row : Row) : option WorkoutDetail :=
  let '(exercise_id, sets_value, reps_value, schedule_day) := row in
  if row_valid db row then
    match resolve db exercise_id, set_count sets_value with
    | Some i, Some z =>
        Some (mkWorkoutDetail i z (PyStr.strip reps_value) (PyStr.strip schedule_day))
    | _, _ => None
    end
  else None.

(** The day tokens a row contributes: those of its day field when the
    row is valid, none otherwise. *)
Definition row_days (db : DB) (row : Row) : list string :=
  if row_valid db row then day_tokens (snd row) else [].

(** The distinct training days of a submission. *)
Definition plan_days (db : DB) (rows : list Row) : gset string :=
  list_to_set (concat (row_days db <$> rows)).

(** The row-level messages. *)
Definition row_messages : list string :=
  [msg_row_incomplete; msg_exercise_not_found; msg_sets_not_number].

(** The rows of a submission. *)
Definition rows_of (form : PlanForm) : list Row :=
  zip4 (exercise_ids form) (sets_list form) (reps_list form) (schedule_days form).

(** The configured cap: the stored value when there is one and it is an
    integer, 6 otherwise. *)
Definition configured_cap (table : gmap string string) : Z :=
  match table !! "max_training_days" with
  | Some v => match PyStr.int v with
              | Ok n => n
              | Raise _ => 6%Z
              end
  | None => 6%Z
  end.

(** The day-count violation of a submission, if any. *)
Definition day_count_error (db : DB) (form : PlanForm) : list string :=
  let n := size (plan_days db (rows_of form)) in
  let cap := configured_cap (system_config db) in
  if (cap <? Z.of_nat n)%Z then [msg_too_many_days cap n] else [].

(** Every violation of a submission, in the order they are reported:
    no exercise at all, then row by row, then the day count. *)
Definition violations (db : DB) (form : PlanForm) : list string :=
  (match exercise_ids form with
   | [] => [msg_add_exercise]
   | _ => []
   end)
  ++ omap (row_error db) (rows_of form)
  ++ day_count_error db form.

(** The tables once the plan of a submission is stored with a detail
    for each of its rows. *)
Definition with_plan (db : DB) (current_user member_id : Z) (form : PlanForm) : DB :=
  mkDB (members db) (exercises db) (system_config db)
    (workout_plans db
     ++ [mkWorkoutPlan member_id current_user (PyStr.strip (notes form))
           (omap (row_detail db) (rows_of form))]).

(** The response that shows the form again. *)
Definition form_page : Response := Render "trainer/create_plan.html".

(** [needle] occurs in [s]. *)
Definition contains (s needle : string) : Prop :=
  exists before after, s = before +:+ needle +:+ after.
End PlanSpec.

(** ** [len] of a Python string *)

Module PyLen.
(** In UTF-8 every byte except a continuation byte (0x80..0xBF) starts a
    character. *)
Definition is_continuation (c : ascii) : bool :=
  let n := nat_of_ascii c in (128 <=? n) && (n <=? 191).

(** [len(s)]: the number of characters of the text. *)
Fixpoint len (s : string) : nat :=
  match s with
  | EmptyString => 0
  | String c s' => if is_continuation c then len s' else S (len s')
  end.
End PyLen.

(** ** Users: the [User] model, the auth blueprint and user maintenance *)

Module Users.
Import Trainer.

Record User : Type := mkUser {
  user_id : Z;
  username : string;
  email : string;
  password_hash : string;
  role : string;
  is_active : bool
}.

(** [User.query.filter_by(username=...).first()] and its siblings: the
    first row, in table order, that matches. *)
Definition by_username (users : list User) (name : string) : option User :=
  head (filter (fun u => username u = name) users).

Definition by_email (users : list User) (address : string) : option User :=
  head (filter (fun u => email u = address) users).

(** [User.query.get(id)] *)
Definition by_id (users : list User) (id : Z) : option User :=
  head (filter (fun u => user_id u = id) users).

(** [ROLE_REDIRECTS] *)
Definition ROLE_REDIRECTS : gmap string string :=
  {[ "receptionist" := "/reception/dashboard";
     "trainer" := "/trainer/dashboard";
     "cashier" := "/cashier/dashboard";
     "admin" := "/admin/dashboard" ]}.

(** [url_for("auth.login")]: the blueprint has no prefix and the route is
    ["/login"]. *)
Definition login_url : string := "/login".

(** [_redirect_for_role(role)] *)
Definition _redirect_for_role (role : string) : string :=
  default login_url (ROLE_REDIRECTS !! PyStr.lower role).

Definition msg_locked : string :=
  "Tài khoản của bạn đã bị khóa. Vui lòng liên hệ quản trị viên.".
Definition msg_logged_in : string := "Đăng nhập thành công.".
Definition msg_bad_credentials : string := "Tên đăng nhập hoặc mật khẩu không đúng.".
Definition login_page : Response := Render "auth/login.html".

(** The roles [create_user] and [edit_user] accept. *)
Definition valid_roles : list string := ["admin"; "receptionist"; "trainer"; "cashier"].

Definition msg_username_required : string := "Tên đăng nhập là bắt buộc.".
Definition msg_email_required : string := "Email là bắt buộc.".
Definition msg_password_short : string := "Mật khẩu phải có ít nhất 6 ký tự.".
Definition msg_role_invalid : string := "Vai trò không hợp lệ.".
Definition msg_username_taken : string := "Tên đăng nhập đã tồn tại.".
Definition msg_email_taken : string := "Email đã được sử dụng.".
Definition msg_no_self_lock : string := "Bạn không thể khóa tài khoản của chính mình.".
Definition msg_no_self_delete : string := "Bạn không thể xóa tài khoản của chính mình.".
Definition msg_has_plans : string := "Không thể xóa người dùng có lịch tập liên quan.".

(** The user form of [create_user] and [edit_user]: the raw fields. *)
Record UserForm : Type := mkUserForm {
  uf_username : string;
  uf_email : string;
  uf_password : string;
  uf_role : string
}.

(** [errors.append(message)] under a condition. *)
Definition error_if (condition : bool) (message : string) : list string :=
  if condition then [message] else [].

(** The row with primary key [id] replaced. *)
Definition update_row (users : list User) (id : Z) (user' : User) : list User :=
  (fun u => if decide (user_id u = id) then user' else u) <$> users.

(** [db.session.delete(user)] *)
Definition delete_row (users : list User) (id : Z) : list User :=
  filter (fun u => user_id u <> id) users.

(** [toggle_user_active]: [None] is the 404 of [get_or_404]. *)
Definition toggle_user_active (users : list User) (current_user_id id : Z)
  : option (list User * (string * string) * Response) :=
  match by_id users id with
  | None => None
  | Some user =>
      if decide (user_id user = current_user_id)
      then Some (users, (msg_no_self_lock, "danger"), Redirect "admin.users")
      else
        let user' := mkUser (user_id user) (username user) (email user)
                       (password_hash user) (role user) (negb (is_active user)) in
        let status := if is_active user' then "kích hoạt" else "khóa" in
        Some (update_row users id user',
              ("Đã " +:+ status +:+ " tài khoản '" +:+ username user' +:+ "'.",
               "success"),
              Redirect "admin.users")
  end.

(** [delete_user]; [user.workout_plans] are the plans whose trainer the
    user is. *)
Definition delete_user (users : list User) (plans : list WorkoutPlan)
    (current_user_id id : Z)
  : option (list User * (string * string) * Response) :=
  match by_id users id with
  | None => None
  | Some user =>
      if decide (user_id user = current_user_id)
      then Some (users, (msg_no_self_delete, "danger"), Redirect "admin.users")
      else
        match filter (fun p => wp_trainer_id p = user_id user) plans with
        | _ :: _ => Some (users, (msg_has_plans, "danger"), Redirect "admin.users")
        | [] =>
            Some (delete_row users id,
                  ("Đã xóa người dùng '" +:+ username user +:+ "'.", "success"),
                  Redirect "admin.users")
        end
  end.

Section Passwords.
(** werkzeug's [generate_password_hash] and [check_password_hash], taken
    as given. *)
Context (generate_password_hash : string -> string)
        (check_password_hash : string -> string -> bool).

(** [user.check_password(password)] *)
Definition check_password (user : User) (password : string) : bool :=
  check_password_hash (password_hash user) password.

(** [login]: the user of the session after the request, the messages and
    the response. [current_user] is the authenticated user of the
    session, if any. *)
Definition login (users : list User) (current_user : option User) (method : Method)
    (form_username form_password : string)
  : option User * list (string * string) * Response :=
  match current_user with
  | Some u => (current_user, [], Redirect (_redirect_for_role (role u)))
  | None =>
      match method with
      | POST =>
          let username := PyStr.strip form_username in
          let password := form_password in
          match by_username users username with
          | Some user =>
              if check_password user password then
                if negb (is_active user)
                then (None, [(msg_locked, "danger")], login_page)
                else (Some user, [(msg_logged_in, "success")],
                      Redirect (_redirect_for_role (role user)))
              else (None, [(msg_bad_credentials, "danger")], login_page)
          | None => (None, [(msg_bad_credentials, "danger")], login_page)
          end
      | GET => (None, [], login_page)
      end
  end.

(** The checks of [create_user], in the order the messages are flashed. *)
Definition create_user_errors (users : list User) (form : UserForm) : list string :=
  let username := PyStr.strip (uf_username form) in
  let email := PyStr.strip (uf_email form) in
  let password := uf_password form in
  let role := PyStr.strip (uf_role form) in
  error_if (PyStr.falsy username) msg_username_required
  ++ error_if (PyStr.falsy email) msg_email_required
  ++ error_if (PyStr.falsy password || (PyLen.len password <? 6)) msg_password_short
  ++ error_if (negb (bool_decide (role ∈ valid_roles))) msg_role_invalid
  ++ error_if (bool_decide (is_Some (by_username users username))) msg_username_taken
  ++ error_if (bool_decide (is_Some (by_email users email))) msg_email_taken.

(** [create_user]; [new_id] is the primary key the database gives the
    new row. *)
Definition create_user (users : list User) (new_id : Z) (method : Method)
    (form : UserForm)
  : list User * list (string * string) * Response :=
  match method with
  | POST =>
      let username := PyStr.strip (uf_username form) in
      let email := PyStr.strip (uf_email form) in
      let password := uf_password form in
      let role := PyStr.strip (uf_role form) in
      match create_user_errors users form with
      | [] =>
          let user := mkUser new_id username email
                        (generate_password_hash password) role true in
          (users ++ [user],
           [("Tạo người dùng '" +:+ username +:+ "' thành công.", "success")],
           Redirect "admin.users")
      | errors => (users, danger errors, Render "admin/user_create.html")
      end
  | GET => (users, [], Render "admin/user_create.html")
  end.

(** The checks of [edit_user]: a name or an address is taken when its
    first holder is another user. *)
Definition edit_user_errors (users : list User) (id : Z) (form : UserForm)
  : list string :=
  let username := PyStr.strip (uf_username form) in
  let email := PyStr.strip (uf_email form) in
  let role := PyStr.strip (uf_role form) in
  error_if (PyStr.falsy username) msg_username_required
  ++ error_if (PyStr.falsy email) msg_email_required
  ++ error_if (negb (bool_decide (role ∈ valid_roles))) msg_role_invalid
  ++ error_if (match by_username users username with
               | Some existing => negb (bool_decide (user_id existing = id))
               | None => false
               end) msg_username_taken
  ++ error_if (match by_email users email with
               | Some existing => negb (bool_decide (user_id existing = id))
               | None => false
               end) msg_email_taken.

(** [edit_user]: [None] is the 404 of [get_or_404]. *)
Definition edit_user (users : list User) (id : Z) (method : Method) (form : UserForm)
  : option (list User * list (string * string) * Response) :=
  match by_id users id with
  | None => None
  | Some user =>
      match method with
      | POST =>
          let username := PyStr.strip (uf_username form) in
          let email := PyStr.strip (uf_email form) in
          let password := uf_password form in
          let role := PyStr.strip (uf_role form) in
          match edit_user_errors users id form with
          | [] =>
              let long_enough := negb (PyStr.falsy password) && (6 <=? PyLen.len password) in
              let too_short := negb (PyStr.falsy password) && (PyLen.len password <? 6) in
              let user' :=
                mkUser (user_id user) username email
                  (if long_enough then generate_password_hash password
                   else password_hash user)
                  role (is_active user) in
              Some (update_row users id user',
                    (if too_short then [(msg_password_short, "warning")] else [])
                    ++ [("Cập nhật người dùng '" +:+ username +:+ "' thành công.",
                         "success")],
                    Redirect "admin.users")
          | errors => Some (users, danger errors, Render "admin/user_edit.html")
          end
      | GET => Some (users, [], Render "admin/user_edit.html")
      end
  end.
End Passwords.
End Users.

(** ** The cashier's desk: payments, the invoice history and the packages
    they refer to *)

Module Desk.
Import Trainer.

(** An invoice row with its foreign keys. *)
Record InvoiceRow : Type := mkInvoiceRow {
  inv_member_id : Z;
  inv_package_id : Z;
  inv_amount : float;
  inv_created_at : datetime
}.

(** The tables the cashier's requests and package deletion touch. *)
Record Tables : Type := mkTables {
  members : gmap Z Member;
  packages : gmap Z Package;
  invoices : list InvoiceRow
}.

(** [db.session.get(Model, int(field)) if field.isdigit() else None] *)
Definition get_by_field {A : Type} (table : gmap Z A) (field : string)
  : result (option (Z * A)) :=
  if PyStr.isdigit field then
    try! i := PyStr.int field in
    Ok (pair i <$> table !! i)
  else Ok None.

Definition msg_member_missing : string := "Không tìm thấy hội viên.".
Definition msg_package_missing : string := "Không tìm thấy gói tập.".
Definition msg_paid : string :=
  "Thanh toán thành công và đã cập nhật thời hạn hội viên.".
Definition payment_page : Response := Render "cashier/payment.html".

(** [payment]: [today] is [date.today()], [now] the [datetime.utcnow()]
    the new invoice is stamped with. An exception leaves no trace: the
    commit is the last statement. *)
Definition payment (t : Tables) (today : date) (now : datetime) (method : Method)
    (form_member_id form_package_id : string)
  : result (Tables * list (string * string) * Response) :=
  match method with
  | POST =>
      let member_id := PyStr.strip form_member_id in
      let package_id := PyStr.strip form_package_id in
      try! member := get_by_field (members t) member_id in
      let errors_member := match member with
                           | None => [msg_member_missing]
                           | Some _ => []
                           end in
      try! package := get_by_field (packages t) package_id in
      let errors := errors_member ++ match package with
                                     | None => [msg_package_missing]
                                     | Some _ => []
                                     end in
      match errors, member, package with
      | [], Some (mid, m), Some (pid, p) =>
          let invoice := mkInvoiceRow mid pid (price p) now in
          try! m' := Cashier.payment today p m in
          Ok (mkTables (<[mid := m']> (members t)) (packages t)
                (invoices t ++ [invoice]),
              [(msg_paid, "success")], Redirect "cashier.payment")
      | _, _, _ => Ok (t, danger errors, payment_page)
      end
  | GET => Ok (t, [], payment_page)
  end.

Definition msg_package_invoiced : string := "Không thể xóa gói tập đã có hóa đơn.".

(** [delete_package]: [None] is the 404 of [get_or_404]. *)
Definition delete_package (t : Tables) (id : Z)
  : option (Tables * (string * string) * Response) :=
  match packages t !! id with
  | None => None
  | Some package =>
      let invoice_count :=
        length (filter (fun inv => inv_package_id inv = id) (invoices t)) in
      if 0 <? invoice_count
      then Some (t, (msg_package_invoiced, "danger"), Redirect "admin.packages")
      else
        let package_name := package_name package in
        Some (mkTables (members t) (delete id (packages t)) (invoices t),
              ("Đã xóa gói tập '" +:+ package_name +:+ "'.", "success"),
              Redirect "admin.packages")
  end.

(** The filter of [active_members]: [Member.active_until >= today]; a
    missing date compares as unknown and is filtered out. *)
Definition is_active_on (today : date) (m : Member) : bool :=
  match active_until m with
  | Some d => date_geb d today
  | None => false
  end.

(** [active_members]: the count it reports. *)
Definition active_members (members : gmap Z Member) (today : date) : nat :=
  size (filter (fun kv => is_active_on today kv.2 = true) members).
End Desk.

(** ** The revenue block of the cashier's history page *)

Module History.
Section Totals.
Context {A : Type} (zero : A) (add : A -> A -> A).

(** Lines 99-120 of [history]: the monthly totals of the current year,
    computed as in [revenue_data] and independently of the filters of the
    page, and [sum(monthly_totals)]. *)
Definition revenue (current_year : Z) (invoices : list (Admin.Invoice A))
  : result (list A * A) :=
  let monthly_totals := replicate 12 zero in
  let revenue_results := Admin.revenue_query add current_year invoices in
  try! monthly_totals := Admin.fill_totals revenue_results monthly_totals in
  let total_revenue := fold_left add monthly_totals zero in
  Ok (monthly_totals, total_revenue).
End Totals.
End History.

(** ** Settings, exercise deletion and the trainer's dashboard *)

Module Settings.
Import Trainer.

Definition msg_cap_range : string := "Số ngày tập tối đa phải từ 1 đến 7.".
Definition msg_settings_saved : string := "Cập nhật cài đặt thành công.".

(** [update_settings]; [raw] is the submitted field, if any, and
    [str(n)] is the decimal text of [n]. *)
Definition update_settings (table : gmap string string) (raw : option string)
  : gmap string string * (string * string) * Response :=
  let max_training_days := Admin.form_get_int raw in
  match max_training_days with
  | None => (table, (msg_cap_range, "danger"), Redirect "admin.settings")
  | Some n =>
      if ((n <? 1) || (n >? 7))%Z
      then (table, (msg_cap_range, "danger"), Redirect "admin.settings")
      else (SystemConfig.set_config table "max_training_days" (pretty n),
            (msg_settings_saved, "success"), Redirect "admin.settings")
  end.

(** [settings]: the value the page shows. *)
Definition settings (table : gmap string string) : option string :=
  SystemConfig.get_config table "max_training_days" (Some "6").
End Settings.

Module Exercises.
Import Trainer.

Definition msg_exercise_in_use : string :=
  "Không thể xóa bài tập đang được sử dụng trong lịch tập.".

(** Every [WorkoutDetail] row of the database. *)
Definition all_details (db : DB) : list WorkoutDetail :=
  concat (workout_details <$> workout_plans db).

(** [delete_exercise]: [None] is the 404 of [get_or_404]. *)
Definition delete_exercise (db : DB) (id : Z)
  : option (DB * (string * string) * Response) :=
  match exercises db !! id with
  | None => None
  | Some exercise =>
      let workout_detail_count :=
        length (filter (fun d => wd_exercise_id d = id) (all_details db)) in
      if 0 <? workout_detail_count
      then Some (db, (msg_exercise_in_use, "danger"), Redirect "admin.exercises")
      else
        let exercise_name := exercise_name exercise in
        Some (mkDB (members db) (delete id (exercises db)) (system_config db)
                (workout_plans db),
              ("Đã xóa bài tập '" +:+ exercise_name +:+ "'.", "success"),
              Redirect "admin.exercises")
  end.
End Exercises.

Module Dashboard.
Import Trainer.

(** One entry of [members_data]. *)
Record Entry : Type := mkEntry {
  entry_member : Member;
  has_plan : bool;
  plan_count : nat
}.

(** [dashboard] of the trainer blueprint: [all_members] is the result of
    the member query (ordered by name), [plans] the plan table. *)
Definition dashboard (all_members : list Member) (plans : list WorkoutPlan)
    (current_user_id : Z) : list Entry :=
  let assigned_member_ids : gset Z :=
    list_to_set
      (wp_member_id <$> filter (fun p => wp_trainer_id p = current_user_id) plans) in
  (fun member =>
     mkEntry member
       (bool_decide (member_id member ∈ assigned_member_ids))
       (length (filter (fun p => wp_member_id p = member_id member
                                 /\ wp_trainer_id p = current_user_id) plans)))
  <$> all_members.
End Dashboard.

(** ** Invariants of the tables and the requests that must keep them *)

Module Invariants.
Import Trainer.

(** The keys of the user table: primary keys, names and addresses are
    pairwise distinct. *)
Definition users_ok (users : list Users.User) : Prop :=
  NoDup (Users.user_id <$> users)
  /\ NoDup (Users.username <$> users)
  /\ NoDup (Users.email <$> users).

(** Every plan names a trainer of the user table. *)
Definition trainers_resolve (users : list Users.User) (plans : list WorkoutPlan) : Prop :=
  Forall (fun p => is_Some (Users.by_id users (wp_trainer_id p))) plans.

(** Every invoice names a stored member and a stored package. *)
Definition invoices_resolve (t : Desk.Tables) : Prop :=
  Forall (fun inv => is_Some (Desk.members t !! Desk.inv_member_id inv)
                     /\ is_Some (Desk.packages t !! Desk.inv_package_id inv))
    (Desk.invoices t).

(** One request that writes to the desk's tables. *)
Inductive desk_step : Desk.Tables -> Desk.Tables -> Prop :=
| step_payment t today now method form_member_id form_package_id t' flashes response :
    Desk.payment t today now method form_member_id form_package_id
    = Ok (t', flashes, response) ->
    desk_step t t'
| step_delete_package t id t' flash response :
    Desk.delete_package t id = Some (t', flash, response) ->
    desk_step t t'.

(** Every workout detail names a stored exercise. *)
Definition details_resolve (db : DB) : Prop :=
  Forall (fun d => is_Some (exercises db !! wd_exercise_id d)) (Exercises.all_details db).

(** One request that writes to the plan tables. *)
Inductive plan_step : DB -> DB -> Prop :=
| step_create_plan db current_user method member_id form db' flashes response :
    create_plan db current_user method member_id form = Ok (db', flashes, response) ->
    plan_step db db'
| step_delete_exercise db id db' flash response :
    Exercises.delete_exercise db id = Some (db', flash, response) ->
    plan_step db db'
| step_update_settings db raw table' flash response :
    Settings.update_settings (system_config db) raw = (table', flash, response) ->
    plan_step db (mkDB (members db) (exercises db) table' (workout_plans db)).

(** The stored cap, when there is one, is the decimal text of a number
    from 1 to 7. *)
Definition cap_in_range (db : DB) : Prop :=
  forall value, system_config db !! "max_training_days" = Some value ->
    exists n, (1 <= n <= 7)%Z /\ value = pretty n.
End Invariants.

(** * Properties *)

(** ** Boolean tests as propositions *)

Ltac unbool :=
  repeat match goal with
  | H : _ && _ = true |- _ => apply andb_true_iff in H; destruct H
  | H : _ || _ = true |- _ => apply orb_true_iff in H
  | H : _ || _ = false |- _ => apply orb_false_iff in H; destruct H
  | H : negb _ = true |- _ => apply negb_true_iff in H
  | H : (_ <=? _)%Z = true |- _ => apply Z.leb_le in H
  | H : (_ <=? _)%Z = false |- _ => apply Z.leb_gt in H
  | H : (_ <? _)%Z = true |- _ => apply Z.ltb_lt in H
  | H : (_ <? _)%Z = false |- _ => apply Z.ltb_ge in H
  | H : (_ =? _)%Z = true |- _ => apply Z.eqb_eq in H
  | H : (_ =? _)%Z = false |- _ => apply Z.eqb_neq in H
  end.

(** Linear arithmetic with division and remainder by constants. *)
Ltac divlia := Z.to_euclidean_division_equations; lia.

Section DateFacts.
Local Open Scope Z_scope.

Lemma valid_date_fields d :
  valid_date d = true ->
  1 <= year d <= 9999 /\ 1 <= month d <= 12
  /\ 1 <= day d <= days_in_month (year d) (month d).
Proof.
  unfold valid_date, check_date_fields, MINYEAR, MAXYEAR.
  intros H. unbool. lia.
Qed.

Lemma check_date_fields_intro y m d :
  1 <= y <= 9999 -> 1 <= m <= 12 -> 1 <= d <= days_in_month y m ->
  check_date_fields y m d = true.
Proof.
  intros Hy Hm Hd. unfold check_date_fields, MINYEAR, MAXYEAR.
  repeat (apply andb_true_iff; split); lia.
Qed.

Lemma date_leb_spec a b :
  date_leb a b = true <->
  year a < year b
  \/ (year a = year b
      /\ (month a < month b \/ (month a = month b /\ day a <= day b))).
Proof.
  unfold date_leb, date_ltb, date_eqb.
  rewrite !orb_true_iff, !andb_true_iff, !orb_true_iff, !andb_true_iff.
  rewrite !Z.ltb_lt, !Z.eqb_eq. lia.
Qed.

Lemma date_ltb_spec a b :
  date_ltb a b = true <->
  year a < year b
  \/ (year a = year b
      /\ (month a < month b \/ (month a = month b /\ day a < day b))).
Proof.
  unfold date_ltb.
  rewrite !orb_true_iff, !andb_true_iff, !orb_true_iff, !andb_true_iff.
  rewrite !Z.ltb_lt, !Z.eqb_eq. lia.
Qed.

Lemma date_leb_refl a : date_leb a a = true.
Proof. apply date_leb_spec. lia. Qed.

Lemma date_leb_trans a b c :
  date_leb a b = true -> date_leb b c = true -> date_leb a c = true.
Proof. rewrite !date_leb_spec. lia. Qed.

Lemma date_ltb_leb a b : date_ltb a b = true -> date_leb a b = true.
Proof. rewrite date_ltb_spec, date_leb_spec. lia. Qed.

Lemma date_leb_total a b : date_leb a b = false -> date_leb b a = true.
Proof.
  intros H. apply date_leb_spec.
  destruct (date_leb b a) eqn:E; [apply date_leb_spec in E; exact E|].
  assert (~ date_leb a b = true) as Ha by congruence.
  assert (~ date_leb b a = true) as Hb by congruence.
  rewrite date_leb_spec in Ha, Hb. lia.
Qed.

(** The two leap-year rules agree. *)
Lemma leap_year_isleap y : MembershipSpec.leap_year y = Calendar.isleap y.
Proof.
  unfold MembershipSpec.leap_year, Calendar.isleap.
  destruct (y mod 400 =? 0) eqn:E400, (y mod 100 =? 0) eqn:E100,
           (y mod 4 =? 0) eqn:E4; simpl; try reflexivity; unbool; divlia.
Qed.

Lemma days_in_month_last_day y m :
  1 <= m <= 12 -> days_in_month y m = MembershipSpec.last_day_of_month y m.
Proof.
  intros Hm. unfold days_in_month, MembershipSpec.last_day_of_month.
  rewrite leap_year_isleap.
  destruct m as [|p|p]; try lia.
  do 4 (try destruct p as [p|p|]); try lia; reflexivity.
Qed.

Lemma monthrange_days_in_month y m :
  1 <= m <= 12 -> Calendar.monthrange_days y m = Ok (days_in_month y m).
Proof.
  intros Hm. unfold Calendar.monthrange_days, days_in_month.
  replace ((1 <=? m) && (m <=? 12)) with true
    by (symmetry; apply andb_true_iff; lia).
  f_equal.
  destruct ((m =? 2) && Calendar.isleap y) eqn:E; [|lia].
  unbool. subst m. reflexivity.
Qed.

Lemma last_day_bounds y m : 28 <= MembershipSpec.last_day_of_month y m <= 31.
Proof.
  unfold MembershipSpec.last_day_of_month.
  destruct m as [|p|p]; try lia.
  do 4 (try destruct p as [p|p|]); try lia.
  destruct (MembershipSpec.leap_year y); lia.
Qed.

(** [k] calendar months after month [m] of year [y], in closed form. *)
Lemma iter_next_month y m (k : nat) :
  1 <= m <= 12 ->
  Nat.iter k MembershipSpec.next_month (y, m)
  = (y + (m - 1 + Z.of_nat k) / 12, (m - 1 + Z.of_nat k) mod 12 + 1).
Proof.
  intros Hm. induction k as [|k IH].
  - simpl. f_equal.
    + rewrite Z.add_0_r, Z.div_small by lia. lia.
    + rewrite Z.add_0_r, Z.mod_small by lia. lia.
  - rewrite Nat.iter_succ, IH. unfold MembershipSpec.next_month.
    replace (m - 1 + Z.of_nat (S k)) with (m - 1 + Z.of_nat k + 1) by lia.
    set (i := m - 1 + Z.of_nat k).
    destruct (i mod 12 + 1 =? 12) eqn:E; unbool; f_equal; divlia.
Qed.

(** [_add_months] in terms of the month reached: the one place where it
    can raise is the year check of [date]. *)
Lemma _add_months_unfold d n :
  valid_date d = true ->
  Cashier._add_months d n
  = date_new (year d + (month d - 1 + n) / 12) ((month d - 1 + n) mod 12 + 1)
      (Z.min (day d)
         (MembershipSpec.last_day_of_month
            (year d + (month d - 1 + n) / 12) ((month d - 1 + n) mod 12 + 1))).
Proof.
  intros Hd. unfold Cashier._add_months.
  set (i := month d - 1 + n).
  assert (1 <= i mod 12 + 1 <= 12) as Hm by divlia.
  rewrite monthrange_days_in_month by exact Hm. simpl.
  rewrite days_in_month_last_day by exact Hm. reflexivity.
Qed.

Lemma date_new_clamped y m d0 :
  1 <= m <= 12 -> 1 <= d0 ->
  date_new y m (Z.min d0 (MembershipSpec.last_day_of_month y m))
  = if (1 <=? y) && (y <=? 9999)
    then Ok (mkdate y m (Z.min d0 (MembershipSpec.last_day_of_month y m)))
    else Raise ValueError.
Proof.
  intros Hm Hd. unfold date_new.
  pose proof (last_day_bounds y m) as Hl.
  destruct ((1 <=? y) && (y <=? 9999)) eqn:E.
  - unbool. rewrite check_date_fields_intro; [reflexivity|lia|lia|].
    rewrite days_in_month_last_day by lia. lia.
  - unfold check_date_fields, MINYEAR, MAXYEAR. rewrite E. reflexivity.
Qed.
End DateFacts.

(** ** Membership extension *)

Section Extension.
Local Open Scope Z_scope.

Lemma base_date_anchor today au :
  Cashier.base_date today au = MembershipSpec.anchor today au.
Proof. reflexivity. Qed.

Lemma base_date_valid today au :
  valid_date today = true ->
  (forall a, au = Some a -> valid_date a = true) ->
  valid_date (Cashier.base_date today au) = true.
Proof.
  intros Ht Ha. unfold Cashier.base_date.
  destruct au as [a|]; [|exact Ht].
  destruct (date_geb a today); [apply Ha; reflexivity|exact Ht].
Qed.

(** The anchor is never before the current expiry. *)
Lemma base_date_ge today a :
  date_leb a (Cashier.base_date today (Some a)) = true.
Proof.
  unfold Cashier.base_date, date_geb.
  destruct (date_leb today a) eqn:E; [apply date_leb_refl|].
  apply date_leb_total. exact E.
Qed.

Lemma advance_closed_form d (k : nat) :
  valid_date d = true ->
  MembershipSpec.advance d k
  = mkdate (year d + (month d - 1 + Z.of_nat k) / 12)
      ((month d - 1 + Z.of_nat k) mod 12 + 1)
      (Z.min (day d)
         (MembershipSpec.last_day_of_month
            (year d + (month d - 1 + Z.of_nat k) / 12)
            ((month d - 1 + Z.of_nat k) mod 12 + 1))).
Proof.
  intros Hd. apply valid_date_fields in Hd.
  unfold MembershipSpec.advance.
  rewrite iter_next_month by lia. reflexivity.
Qed.

(** [_add_months] against the month-by-month reading, for a count of
    months that is not negative. *)
Lemma _add_months_advance d n :
  valid_date d = true -> 0 <= n ->
  Cashier._add_months d n
  = if year (MembershipSpec.advance d (Z.to_nat n)) <=? 9999
    then Ok (MembershipSpec.advance d (Z.to_nat n))
    else Raise ValueError.
Proof.
  intros Hd Hn.
  pose proof (valid_date_fields d Hd) as (Hy & Hm & Hday).
  rewrite _add_months_unfold by exact Hd.
  rewrite advance_closed_form by exact Hd.
  rewrite Z2Nat.id by exact Hn. cbn [year].
  set (i := month d - 1 + n).
  rewrite date_new_clamped by (try divlia; lia).
  assert (0 <= i / 12) by (unfold i; divlia).
  replace (1 <=? year d + i / 12) with true by (symmetry; apply Z.leb_le; lia).
  reflexivity.
Qed.

(** A result of [_add_months] is a valid date, and with at least one
    month it is strictly later than the start. *)
Lemma _add_months_later d n d' :
  valid_date d = true -> 1 <= n ->
  Cashier._add_months d n = Ok d' ->
  valid_date d' = true /\ date_ltb d d' = true.
Proof.
  intros Hd Hn Heq.
  pose proof (valid_date_fields d Hd) as (Hy & Hm & Hday).
  rewrite _add_months_unfold in Heq by exact Hd.
  unfold date_new in Heq.
  destruct (check_date_fields _ _ _) eqn:Hc; [|discriminate].
  injection Heq as <-. split; [exact Hc|].
  apply date_ltb_spec. cbn [year month day]. divlia.
Qed.
End Extension.

(** The worked examples of the specification: the end of January lands on
    the end of February, and an absent expiry anchors on today. *)
Example jan31_plus_one_month_common_year :
  Cashier._add_months (mkdate 2023 1 31) 1 = Ok (mkdate 2023 2 28).
Proof. reflexivity. Qed.

Example jan31_plus_one_month_leap_year :
  Cashier._add_months (mkdate 2024 1 31) 1 = Ok (mkdate 2024 2 29).
Proof. reflexivity. Qed.

Example absent_expiry_three_months :
  Cashier.new_active_until (mkdate 2024 1 15) (mkMember 1 None)
    (mkPackage "Standard Quarterly" 3 1300000%float None)
  = Ok (mkdate 2024 4 15).
Proof. reflexivity. Qed.

(** C1, as stated, fails where the date type ends: on 2024-01-15 a package
    of 95712 months (a duration [create_package] accepts) leads to year
    10000, which [date] refuses; the request raises [ValueError] and no
    new [active_until] is produced. *)
Lemma membership_extension_year_overflow :
  let today := mkdate 2024 1 15 in
  let member := mkMember 1 None in
  let package := mkPackage "Long" 95712 500000%float None in
  valid_date today = true
  /\ (1 <= duration_months package)%Z
  /\ MembershipSpec.advance (MembershipSpec.anchor today (active_until member))
       (Z.to_nat (duration_months package)) = mkdate 10000 1 15
  /\ Cashier.new_active_until today member package = Raise ValueError
  /\ Cashier.member_after today package member = member.
Proof.
  cbv zeta. split; [reflexivity|]. split; [simpl; lia|].
  repeat split; vm_compute; reflexivity.
Qed.

(** C1 (amended): for every duration of at least one month, every optional
    current [active_until] and every today, let the anchor be
    [active_until] when it is present and not before today, and today
    otherwise, and let the target be the anchor advanced by the duration
    in calendar months with the day clamped to the last valid day of the
    month reached. When the target's year is at most 9999 the new
    [active_until] is the target; beyond that [date] raises [ValueError]
    and the member keeps the old value. *)
Theorem membership_extension_postcondition
    (today : date) (member : Member) (package : Package) :
  valid_date today = true ->
  (forall au, active_until member = Some au -> valid_date au = true) ->
  (1 <= duration_months package)%Z ->
  let anchor := MembershipSpec.anchor today (active_until member) in
  let target := MembershipSpec.advance anchor (Z.to_nat (duration_months package)) in
  ((year target <= MAXYEAR)%Z ->
     Cashier.new_active_until today member package = Ok target
     /\ active_until (Cashier.member_after today package member) = Some target
     /\ valid_date target = true)
  /\ ((MAXYEAR < year target)%Z ->
        Cashier.new_active_until today member package = Raise ValueError
        /\ Cashier.member_after today package member = member).
Proof.
  intros Ht Hau Hn anchor target.
  assert (valid_date anchor = true) as Ha
    by (apply base_date_valid; assumption).
  assert (Cashier.new_active_until today member package
          = if (year target <=? 9999)%Z then Ok target else Raise ValueError) as Heq.
  { unfold Cashier.new_active_until. rewrite base_date_anchor.
    apply _add_months_advance; [exact Ha|lia]. }
  unfold MAXYEAR. split; intros Hy.
  - replace (year target <=? 9999)%Z with true in Heq
      by (symmetry; apply Z.leb_le; exact Hy).
    split; [exact Heq|].
    unfold Cashier.member_after, Cashier.payment. rewrite Heq. simpl.
    split; [reflexivity|].
    unfold Cashier.new_active_until in Heq.
    eapply _add_months_later in Heq; [apply Heq| |exact Hn].
    rewrite base_date_anchor. exact Ha.
  - replace (year target <=? 9999)%Z with false in Heq
      by (symmetry; apply Z.leb_gt; exact Hy).
    split; [exact Heq|].
    unfold Cashier.member_after, Cashier.payment. rewrite Heq. reflexivity.
Qed.

Lemma membership_extension_postcondition_witness :
  Cashier.new_active_until (mkdate 2024 1 10)
    (mkMember 7 (Some (mkdate 2024 1 31)))
    (mkPackage "Basic Monthly" 1 500000%float None)
  = Ok (mkdate 2024 2 29).
Proof.
  refine (proj1 (proj1 (membership_extension_postcondition
            (mkdate 2024 1 10) (mkMember 7 (Some (mkdate 2024 1 31)))
            (mkPackage "Basic Monthly" 1 500000%float None) _ _ _) _)).
  - reflexivity.
  - intros au [= <-]. reflexivity.
  - simpl. lia.
  - vm_compute. discriminate.
Defined.

(** C5: once [active_until] is set, a payment for a package of at least
    one month never moves it back, and neither does any sequence of such
    payments, whatever the clock reads at each of them. *)
Theorem active_until_monotone
    (events : list (date * Package)) (member : Member) (d0 : date) :
  active_until member = Some d0 ->
  valid_date d0 = true ->
  Forall (fun ev => valid_date (fst ev) = true
                    /\ (1 <= duration_months (snd ev))%Z) events ->
  exists d1,
    active_until (Cashier.payments events member) = Some d1
    /\ valid_date d1 = true
    /\ date_leb d0 d1 = true.
Proof.
  intros Hau Hd0 Hev. revert member d0 Hau Hd0.
  induction Hev as [|[today package] events [Ht Hn] _ IH]; intros member d0 Hau Hd0.
  - exists d0. simpl. auto using date_leb_refl.
  - unfold Cashier.payments. simpl. fold (Cashier.payments events).
    simpl in Ht, Hn.
    assert (exists d, active_until (Cashier.member_after today package member) = Some d
                      /\ valid_date d = true /\ date_leb d0 d = true) as (d & Hd & Hv & Hle).
    { unfold Cashier.member_after, Cashier.payment, Cashier.new_active_until.
      rewrite Hau.
      destruct (Cashier._add_months _ _) as [d'|e] eqn:E; simpl.
      - apply _add_months_later in E; [|apply base_date_valid; [exact Ht|]|exact Hn].
        + destruct E as [Hv Hlt]. exists d'. repeat split; [exact Hv|].
          eapply date_leb_trans; [apply base_date_ge|].
          apply date_ltb_leb. exact Hlt.
        + intros a [= <-]. exact Hd0.
      - exists d0. auto using date_leb_refl. }
    destruct (IH _ _ Hd Hv) as (d1 & H1 & Hv1 & Hle1).
    exists d1. repeat split; [exact H1|exact Hv1|].
    eapply date_leb_trans; eassumption.
Qed.

Lemma active_until_monotone_witness :
  exists d1,
    active_until
      (Cashier.payments
         [(mkdate 2024 3 1, mkPackage "Basic Monthly" 1 500000%float None);
          (mkdate 2024 1 5, mkPackage "Standard Quarterly" 3 1300000%float None)]
         (mkMember 7 (Some (mkdate 2024 1 31)))) = Some d1
    /\ valid_date d1 = true
    /\ date_leb (mkdate 2024 1 31) d1 = true.
Proof.
  apply (active_until_monotone _ _ (mkdate 2024 1 31)).
  - reflexivity.
  - reflexivity.
  - repeat constructor; simpl; lia.
Defined.

(** ** The two month-add conventions *)

Section Conventions.
Local Open Scope Z_scope.

Lemma carry_of_months d n :
  1 <= month d <= 12 ->
  Relativedelta.carry d (Relativedelta.of_months n)
  = (year d + (month d - 1 + n) / 12, (month d - 1 + n) mod 12 + 1).
Proof.
  intros Hm. unfold Relativedelta.carry, Relativedelta.of_months, Relativedelta.sign.
  destruct (Z.abs n >? 11) eqn:Habs; rewrite Z.gtb_ltb in Habs; unbool;
    cbn [Relativedelta.years Relativedelta.months].
  - destruct (n <? 0) eqn:Hneg; unbool.
    + destruct (_ =? 0) eqn:E0; unbool; [f_equal; divlia|].
      destruct (_ >? 12) eqn:E1; rewrite Z.gtb_ltb in E1; unbool; [divlia|].
      destruct (_ <? 1) eqn:E2; unbool; f_equal; divlia.
    + destruct (_ =? 0) eqn:E0; unbool; [f_equal; divlia|].
      destruct (_ >? 12) eqn:E1; rewrite Z.gtb_ltb in E1; unbool; [f_equal; divlia|].
      destruct (_ <? 1) eqn:E2; unbool; f_equal; divlia.
  - destruct (n =? 0) eqn:E0; unbool; [f_equal; divlia|].
    destruct (_ >? 12) eqn:E1; rewrite Z.gtb_ltb in E1; unbool; [f_equal; divlia|].
    destruct (_ <? 1) eqn:E2; unbool; f_equal; divlia.
Qed.

(** For every count of months, positive or not, the library arithmetic
    and [_add_months] give the same date or raise the same error. *)
Lemma relativedelta_add_months d n :
  valid_date d = true ->
  Relativedelta.add d (Relativedelta.of_months n) = Cashier._add_months d n.
Proof.
  intros Hd. pose proof (valid_date_fields d Hd) as (_ & Hm & _).
  unfold Relativedelta.add. rewrite carry_of_months by exact Hm.
  unfold Cashier._add_months.
  destruct (Calendar.monthrange_days _ _); simpl; [|reflexivity].
  rewrite Z.min_comm. reflexivity.
Qed.
End Conventions.

(** C7: for every start date and every duration of at least one month,
    the registration flow ([relativedelta(months=n)] added to the
    registration time, then [.date()]) and the cashier flow
    ([_add_months]) give the same date; where the year leaves the range
    of [date], both raise [ValueError]. *)
Theorem month_add_conventions_agree (registration_date : datetime) (n : Z) :
  valid_date (dt_date registration_date) = true ->
  (1 <= n)%Z ->
  Reception.register_active_until registration_date n
  = Cashier._add_months (dt_date registration_date) n.
Proof.
  intros Hd _. unfold Reception.register_active_until.
  apply relativedelta_add_months. exact Hd.
Qed.

Lemma month_add_conventions_agree_witness :
  Reception.register_active_until (mkdatetime (mkdate 2023 11 30) 43200000000) 15
  = Cashier._add_months (mkdate 2023 11 30) 15.
Proof.
  apply (month_add_conventions_agree (mkdatetime (mkdate 2023 11 30) 43200000000) 15).
  - reflexivity.
  - lia.
Defined.

Example month_end_agrees :
  Reception.register_active_until (mkdatetime (mkdate 2023 11 30) 0) 15
  = Ok (mkdate 2025 2 28).
Proof. reflexivity. Qed.

(** ** Durations below one month *)

Section NonPositiveDuration.
Local Open Scope Z_scope.

(** Whatever the form holds, a package that [create_package] stores
    lasts at least one month. *)
Lemma create_package_guard packages form p :
  p ∈ (Admin.create_package packages form).1 ->
  p ∈ packages \/ 1 <= duration_months p.
Proof.
  unfold Admin.create_package.
  destruct (PyStr.falsy _); [simpl; auto|].
  destruct (Admin.form_get_int _) as [d|]; [|simpl; auto].
  destruct ((d =? 0) || (d <? 1)) eqn:Hd; [simpl; auto|].
  destruct (Admin.pf_price form) as [pr|]; [|simpl; auto].
  destruct (PrimFloat.eqb pr _ || _); simpl; [auto|].
  intros [Hin|Hin]%elem_of_app; [auto|].
  apply list_elem_of_singleton in Hin. subst p. right. simpl. unbool. lia.
Qed.

Lemma elem_of_insert_inv {B : Type} (l : list B) (i : nat) (x y : B) :
  y ∈ <[i := x]> l -> y = x \/ y ∈ l.
Proof.
  revert i. induction l as [|h l IH]; intros [|i]; simpl;
    try (intros H; right; exact H).
  - intros [->|H]%elem_of_cons; [left; reflexivity|].
    right. apply elem_of_cons. right. exact H.
  - intros [->|H]%elem_of_cons; [right; apply elem_of_cons; left; reflexivity|].
    destruct (IH _ H) as [->|H']; [left; reflexivity|].
    right. apply elem_of_cons. right. exact H'.
Qed.

Lemma update_package_guard packages i form p :
  p ∈ (Admin.update_package packages i form).1 ->
  p ∈ packages \/ 1 <= duration_months p.
Proof.
  unfold Admin.update_package.
  destruct (PyStr.falsy _); [simpl; auto|].
  destruct (Admin.form_get_int _) as [d|]; [|simpl; auto].
  destruct ((d =? 0) || (d <? 1)) eqn:Hd; [simpl; auto|].
  destruct (Admin.pf_price form) as [pr|]; [|simpl; auto].
  destruct (PrimFloat.eqb pr _ || _); simpl; [auto|].
  intros [->|Hin]%elem_of_insert_inv; [right; simpl; unbool; lia|left; exact Hin].
Qed.
End NonPositiveDuration.

(** C6, as stated, fails: the extension computation has no duration
    check. A duration of 0 returns the anchor itself and a duration of -1
    returns the month before, both as ordinary dates. *)
Lemma non_positive_duration_returns_date :
  let today := mkdate 2024 1 15 in
  let member := mkMember 1 (Some (mkdate 2024 3 31)) in
  (duration_months (mkPackage "Void" 0 0%float None) < 1)%Z
  /\ Cashier.new_active_until today member (mkPackage "Void" 0 0%float None)
     = Ok (mkdate 2024 3 31)
  /\ Cashier.new_active_until today member (mkPackage "Back" (-1) 0%float None)
     = Ok (mkdate 2024 2 29).
Proof.
  cbv zeta. split; [simpl; lia|]. split; reflexivity.
Qed.

(** C6 (amended): the extension computation has no [InvalidDuration]
    failure. For a duration below one month it returns a date, namely the
    anchor moved by that many calendar months (not at all for 0,
    backwards for a negative count) with the day clamped, unless the year
    would fall below 1, where [date] raises [ValueError]. Durations below
    one month are refused earlier, where packages are created or edited:
    every package [create_package] or [update_package] stores lasts at
    least one month. *)
Theorem non_positive_duration_not_checked_by_extension
    (today : date) (member : Member) (package : Package) :
  valid_date today = true ->
  (forall au, active_until member = Some au -> valid_date au = true) ->
  (duration_months package < 1)%Z ->
  let anchor := MembershipSpec.anchor today (active_until member) in
  let n := duration_months package in
  ((13 <= 12 * year anchor + month anchor + n)%Z ->
     exists d,
       Cashier.new_active_until today member package = Ok d
       /\ valid_date d = true
       /\ date_leb d anchor = true
       /\ (12 * year d + month d = 12 * year anchor + month anchor + n)%Z
       /\ day d = Z.min (day anchor)
                    (MembershipSpec.last_day_of_month (year d) (month d)))
  /\ ((12 * year anchor + month anchor + n < 13)%Z ->
        Cashier.new_active_until today member package = Raise ValueError)
  /\ (forall packages form p,
        p ∈ (Admin.create_package packages form).1 ->
        p ∈ packages \/ (1 <= duration_months p)%Z)
  /\ (forall packages i form p,
        p ∈ (Admin.update_package packages i form).1 ->
        p ∈ packages \/ (1 <= duration_months p)%Z).
Proof.
  intros Ht Hau Hn anchor n.
  assert (valid_date anchor = true) as Ha by (apply base_date_valid; assumption).
  pose proof (valid_date_fields anchor Ha) as (Hy & Hm & Hday).
  assert (Cashier.new_active_until today member package
          = Cashier._add_months anchor n) as Heq by reflexivity.
  fold n in Hn. clearbody n anchor.
  rewrite _add_months_unfold in Heq by exact Ha.
  rewrite date_new_clamped in Heq by (try divlia; lia).
  pose proof (last_day_bounds (year anchor + (month anchor - 1 + n) / 12)
                ((month anchor - 1 + n) mod 12 + 1)) as Hl.
  repeat split.
  - intros Hge.
    replace ((1 <=? _) && (_ <=? 9999))%Z with true in Heq
      by (symmetry; apply andb_true_iff; split; [apply Z.leb_le|apply Z.leb_le];
          divlia).
    eexists. split; [exact Heq|].
    unfold valid_date. cbn [year month day]. repeat split.
    + apply check_date_fields_intro; [divlia|divlia|].
      rewrite days_in_month_last_day by divlia. lia.
    + apply date_leb_spec. cbn [year month day]. divlia.
    + divlia.
  - intros Hlt.
    replace ((1 <=? _) && (_ <=? 9999))%Z with false in Heq; [exact Heq|].
    symmetry. apply andb_false_iff. left. apply Z.leb_gt. divlia.
  - apply create_package_guard.
  - apply update_package_guard.
Qed.

Lemma non_positive_duration_not_checked_by_extension_witness :
  exists d,
    Cashier.new_active_until (mkdate 2024 1 15) (mkMember 1 (Some (mkdate 2024 3 31)))
      (mkPackage "Back" (-1) 0%float None) = Ok d
    /\ valid_date d = true
    /\ date_leb d (mkdate 2024 3 31) = true
    /\ (12 * year d + month d = 12 * 2024 + 3 + -1)%Z
    /\ day d = Z.min 31 (MembershipSpec.last_day_of_month (year d) (month d)).
Proof.
  refine (proj1 (non_positive_duration_not_checked_by_extension
            (mkdate 2024 1 15) (mkMember 1 (Some (mkdate 2024 3 31)))
            (mkPackage "Back" (-1) 0%float None) _ _ _) _).
  - reflexivity.
  - intros au [= <-]. reflexivity.
  - simpl. lia.
  - vm_compute. discriminate.
Defined.

(** ** Monthly revenue *)

Section RevenueFacts.
Context {A : Type} (zero : A) (add : A -> A -> A).
Context `{!Assoc (=) add, !Comm (=) add, !LeftId (=) zero add}.

Import Admin RevenueSpec.

Lemma group_add_keys (P : Z -> Prop) m a (groups : list (Z * A)) :
  P m -> Forall P (groups.*1) -> Forall P ((group_add add m a groups).*1).
Proof.
  intros Hm. induction groups as [|[k t] rest IH]; simpl; intros Hall.
  - constructor; [exact Hm|constructor].
  - inversion Hall as [|? ? Hk Hrest]; subst.
    destruct (m <? k)%Z; [constructor; [exact Hm|exact Hall]|].
    destruct (m =? k)%Z; constructor; auto.
Qed.

Lemma group_add_sorted m a (groups : list (Z * A)) :
  StronglySorted Z.lt (groups.*1) ->
  StronglySorted Z.lt ((group_add add m a groups).*1).
Proof.
  induction groups as [|[k t] rest IH]; simpl; intros Hs.
  - repeat constructor.
  - inversion Hs as [|? ? Hrest Hall]; subst.
    destruct (m <? k)%Z eqn:Elt; unbool.
    + constructor; [exact Hs|]. simpl. constructor; [exact Elt|].
      eapply Forall_impl; [exact Hall|]. simpl. intros; lia.
    + destruct (m =? k)%Z eqn:Eeq; unbool; simpl.
      * constructor; assumption.
      * constructor; [apply IH; exact Hrest|].
        apply group_add_keys; [lia|exact Hall].
Qed.

Lemma group_total_above m (groups : list (Z * A)) :
  Forall (Z.lt m) (groups.*1) -> group_total m groups = None.
Proof.
  induction groups as [|[k t] rest IH]; simpl; intros Hall; [reflexivity|].
  inversion Hall as [|? ? Hk Hrest]; subst.
  destruct (k =? m)%Z eqn:E; unbool; [lia|]. apply IH. exact Hrest.
Qed.

Lemma group_total_add m' m a (groups : list (Z * A)) :
  StronglySorted Z.lt (groups.*1) ->
  group_total m' (group_add add m a groups)
  = if (m =? m')%Z
    then Some (match group_total m groups with
               | Some t => add t a
               | None => a
               end)
    else group_total m' groups.
Proof.
  induction groups as [|[k t] rest IH]; simpl; intros Hs.
  - reflexivity.
  - inversion Hs as [|? ? Hrest Hall]; subst.
    destruct (m <? k)%Z eqn:Elt; unbool.
    + simpl. destruct (m =? m')%Z eqn:Em; [|reflexivity].
      destruct (k =? m)%Z eqn:Ek; unbool; [lia|].
      rewrite group_total_above; [reflexivity|].
      eapply Forall_impl; [exact Hall|]. simpl. intros; lia.
    + destruct (m =? k)%Z eqn:Eeq; unbool; simpl.
      * subst k. rewrite Z.eqb_refl.
        destruct (m =? m')%Z; reflexivity.
      * rewrite IH by exact Hrest.
        destruct (k =? m')%Z eqn:Ek, (m =? m')%Z eqn:Em, (k =? m)%Z eqn:Ekm;
          unbool; try lia; reflexivity.
Qed.

Local Notation "'collect' rows" :=
  (fold_left (fun groups inv => group_add add (invoice_month inv) (amount inv) groups)
     rows []) (at level 10, rows at level 9).

(** The rows of the grouped query: sorted by month, and the total of a
    month is the running sum, in row order, of its amounts. *)
Lemma collect_spec (rows : list (Invoice A)) :
  StronglySorted Z.lt ((collect rows).*1)
  /\ forall m,
       group_total m (collect rows)
       = match amount <$> filter (fun inv => invoice_month inv = m) rows with
         | [] => None
         | a :: r => Some (fold_left add r a)
         end.
Proof.
  induction rows as [|inv rows [IHs IHt]] using rev_ind.
  - split; [constructor|reflexivity].
  - rewrite fold_left_app. simpl. split; [apply group_add_sorted; exact IHs|].
    intros m. rewrite group_total_add by exact IHs.
    rewrite filter_app, fmap_app.
    destruct (invoice_month inv =? m)%Z eqn:E; unbool.
    + rewrite (filter_cons_True _ inv []) by exact E.
      rewrite filter_nil. simpl. rewrite E, IHt.
      destruct (amount <$> filter _ rows) as [|a r]; simpl; [reflexivity|].
      rewrite fold_left_app. reflexivity.
    + rewrite (filter_cons_False _ inv []) by exact E.
      rewrite filter_nil, fmap_nil, app_nil_r. apply IHt.
Qed.

Lemma fold_left_sum (a : A) (r : list A) :
  fold_left add r a = foldr add zero (a :: r).
Proof.
  rewrite <- (left_id zero add a) at 1.
  change (fold_left add r (add zero a)) with (fold_left add (a :: r) zero).
  apply fold_symmetric; intros; [apply (assoc add)|apply (comm add)].
Qed.

Lemma revenue_query_spec (current_year : Z) (invoices : list (Invoice A)) m :
  group_total m (revenue_query add current_year invoices)
  = match filter (in_month current_year m) invoices with
    | [] => None
    | _ => Some (month_total zero add current_year m invoices)
    end.
Proof.
  unfold revenue_query, month_total.
  destruct (collect_spec (filter (fun inv => invoice_year inv = current_year) invoices))
    as [_ ->].
  rewrite list_filter_filter.
  change (filter (fun a => invoice_month a = m /\ invoice_year a = current_year) invoices)
    with (filter (@in_month A current_year m) invoices).
  destruct (filter (in_month current_year m) invoices) as [|inv rest];
    [reflexivity|].
  simpl. rewrite fold_left_sum. reflexivity.
Qed.

Lemma revenue_query_months (current_year : Z) (invoices : list (Invoice A)) :
  Forall (fun inv => valid_date (dt_date (created_at inv)) = true) invoices ->
  Forall (fun k => (1 <= k <= 12)%Z) ((revenue_query add current_year invoices).*1).
Proof.
  intros Hv. unfold revenue_query.
  assert (Forall (fun inv => valid_date (dt_date (created_at inv)) = true)
            (filter (fun inv => invoice_year inv = current_year) invoices)) as Hf.
  { apply Forall_forall. intros inv Hin.
    apply list_elem_of_filter in Hin as [_ Hin].
    rewrite Forall_forall in Hv. apply Hv, Hin. }
  revert Hf. generalize (filter (fun inv => invoice_year inv = current_year) invoices).
  intros rows. induction rows as [|inv rows IH] using rev_ind; intros Hf;
    [constructor|].
  apply Forall_app in Hf as [Hrows Hinv].
  rewrite fold_left_app. simpl. apply group_add_keys; [|apply IH; exact Hrows].
  rewrite Forall_singleton in Hinv.
  apply valid_date_fields in Hinv. unfold invoice_month. lia.
Qed.

(** The loop that fills [monthly_totals]: one assignment per row, none
    out of range, none overwritten. *)
Lemma fill_totals_spec (groups : list (Z * A)) (l0 : list A) :
  length l0 = 12 ->
  StronglySorted Z.lt (groups.*1) ->
  Forall (fun k => (1 <= k <= 12)%Z) (groups.*1) ->
  exists totals,
    fill_totals groups l0 = Ok totals
    /\ length totals = 12
    /\ forall i : nat, i < 12 ->
         totals !! i = match group_total (Z.of_nat i + 1) groups with
                       | Some t => Some t
                       | None => l0 !! i
                       end.
Proof.
  revert l0. induction groups as [|[k t] rest IH]; intros l0 Hlen Hs Hk.
  - exists l0. simpl. auto.
  - inversion Hs as [|? ? Hrest Hall]; subst.
    inversion Hk as [|? ? Hk1 Hkrest]; subst. simpl in Hk1.
    simpl. unfold PyList.setitem. rewrite Hlen.
    replace ((0 <=? k - 1)%Z && (k - 1 <? Z.of_nat 12)%Z) with true
      by (symmetry; apply andb_true_iff; split; [apply Z.leb_le|apply Z.ltb_lt]; lia).
    simpl.
    destruct (IH (<[Z.to_nat (k - 1) := t]> l0)) as (totals & Hfill & Hlen' & Hlook);
      [rewrite length_insert; exact Hlen|exact Hrest|exact Hkrest|].
    exists totals. split; [exact Hfill|]. split; [exact Hlen'|].
    intros i Hi. rewrite (Hlook i Hi).
    destruct (k =? Z.of_nat i + 1)%Z eqn:E; unbool.
    + rewrite group_total_above
        by (eapply Forall_impl; [exact Hall|]; simpl; intros; lia).
      replace (Z.to_nat (k - 1)) with i by lia.
      apply list_lookup_insert_eq. lia.
    + destruct (group_total _ rest); [reflexivity|].
      apply list_lookup_insert_ne. lia.
Qed.

Lemma revenue_data_lookup (current_year : Z) (invoices : list (Invoice A)) :
  Forall (fun inv => valid_date (dt_date (created_at inv)) = true) invoices ->
  exists totals,
    revenue_data zero add current_year invoices = Ok totals
    /\ length totals = 12
    /\ forall i : nat, i < 12 ->
         totals !! i
         = Some (month_total zero add current_year (Z.of_nat i + 1) invoices).
Proof.
  intros Hv. unfold revenue_data.
  destruct (fill_totals_spec (revenue_query add current_year invoices)
              (replicate 12 zero)) as (totals & Hfill & Hlen & Hlook).
  - apply length_replicate.
  - apply collect_spec.
  - apply revenue_query_months. exact Hv.
  - exists totals. split; [exact Hfill|]. split; [exact Hlen|].
    intros i Hi. rewrite (Hlook i Hi), revenue_query_spec.
    unfold month_total.
    destruct (filter _ invoices); [|reflexivity].
    rewrite lookup_replicate_2 by exact Hi. reflexivity.
Qed.

Lemma month_total_permutation y m (l1 l2 : list (Invoice A)) :
  l1 ≡ₚ l2 -> month_total zero add y m l1 = month_total zero add y m l2.
Proof.
  intros Hp. unfold month_total.
  apply (foldr_permutation_proper (=) add zero).
  - intros a1 a2 b. rewrite !(assoc add), (comm add a1 a2). reflexivity.
  - rewrite Hp. reflexivity.
Qed.
End RevenueFacts.



(** ** Strings *)

Section StringFacts.
Import PyStr.

Lemma falsy_spec s : falsy s = true <-> s = EmptyString.
Proof. destruct s; simpl; split; intros H; congruence. Qed.

Lemma falsy_false s : falsy s = false <-> s <> EmptyString.
Proof. destruct s; simpl; split; intros H; congruence. Qed.

Lemma is_digit_not_space c : is_digit c = true -> is_space c = false.
Proof.
  unfold is_digit, is_space. intros H.
  apply andb_true_iff in H as [H1 H2]. apply Nat.leb_le in H1.
  apply orb_false_iff. split; apply andb_false_iff; right; apply Nat.leb_gt; lia.
Qed.

Lemma all_digits_rstrip s : all_digits s = true -> rstrip s = s.
Proof.
  induction s as [|c s IH]; simpl; [reflexivity|].
  intros H. apply andb_true_iff in H as [Hc Hs].
  rewrite (IH Hs). destruct s; [|reflexivity].
  rewrite (is_digit_not_space c Hc). reflexivity.
Qed.

Lemma isdigit_strip s : isdigit s = true -> strip s = s.
Proof.
  destruct s as [|c s]; [discriminate|]. unfold isdigit, strip.
  intros H. pose proof H as H'. simpl in H'.
  apply andb_true_iff in H' as [Hc _].
  simpl lstrip. rewrite (is_digit_not_space c Hc).
  apply all_digits_rstrip. exact H.
Qed.

Lemma all_digits_int_digits s acc :
  all_digits s = true -> exists z, int_digits s acc false = Some z.
Proof.
  revert acc. induction s as [|c s IH]; simpl; intros acc H.
  - eauto.
  - apply andb_true_iff in H as [Hc Hs]. rewrite Hc. apply IH. exact Hs.
Qed.

Lemma int_signed_digit c r :
  is_digit c = true -> int_signed (String c r) = int_unsigned (String c r).
Proof.
  intros H.
  destruct c as [[] [] [] [] [] [] [] []];
    try (exfalso; vm_compute in H; discriminate H); reflexivity.
Qed.

(** A digit string always converts. *)
Lemma isdigit_int s : isdigit s = true -> exists z, int s = Ok z.
Proof.
  intros H. unfold int. rewrite (isdigit_strip s H).
  destruct s as [|c s]; [discriminate|].
  unfold isdigit in H. pose proof H as H'. simpl in H'.
  apply andb_true_iff in H' as [Hc _].
  rewrite (int_signed_digit c s Hc). unfold int_unsigned. rewrite Hc.
  destruct (all_digits_int_digits (String c s) 0%Z H) as [z ->]. eauto.
Qed.

(** [int] raises nothing but [ValueError]. *)
Lemma int_raises s e : int s = Raise e -> e = ValueError.
Proof. unfold int. destruct (int_signed _); congruence. Qed.
End StringFacts.

(** ** The loop over the rows *)

Section PlanFacts.
Import Trainer PlanSpec.

Lemma get_exercise_resolve db exercise_id :
  exists o,
    get_exercise db exercise_id = Ok o /\ fst <$> o = resolve db exercise_id.
Proof.
  unfold get_exercise, resolve.
  destruct (PyStr.isdigit exercise_id) eqn:Hd; [|exists None; auto].
  destruct (isdigit_int _ Hd) as [i ->]. simpl.
  destruct (exercises db !! i); simpl; eauto.
Qed.

Lemma add_tokens_spec (tokens : list string) (U : gset string) :
  fold_left
    (fun acc day =>
       let day_normalized := PyStr.lower (PyStr.strip day) in
       if PyStr.falsy day_normalized then acc else acc ∪ {[ day_normalized ]})
    tokens U
  = U ∪ list_to_set
        (filter (fun t => t <> EmptyString)
           ((fun day => PyStr.lower (PyStr.strip day)) <$> tokens)).
Proof.
  revert U. induction tokens as [|t tokens IH]; intros U; simpl.
  - rewrite union_empty_r_L. reflexivity.
  - rewrite IH. rewrite filter_cons.
    destruct (PyStr.falsy _) eqn:E.
    + apply falsy_spec in E. rewrite decide_False by (intros Hne; apply Hne, E).
      reflexivity.
    + apply falsy_false in E. rewrite decide_True by exact E.
      simpl. rewrite (assoc_L (∪)). reflexivity.
Qed.

Lemma add_days_spec schedule_day (U : gset string) :
  add_days schedule_day U = U ∪ list_to_set (day_tokens schedule_day).
Proof. apply add_tokens_spec. Qed.

(** One row: a failing row only records its error; a valid row only
    adds its detail and its day tokens. *)
Lemma row_step_spec db st row :
  row_step db st row
  = Ok {| errors := errors st ++ option_list (row_error db row);
          details := details st ++ option_list (row_detail db row);
          unique_days := unique_days st ∪ list_to_set (row_days db row) |}.
Proof.
  destruct row as [[[e s] r] d].
  unfold row_step, row_days, row_detail, row_valid, row_error.
  destruct (decide _) as [Hempty|Hfull].
  - replace (PyStr.falsy e || PyStr.falsy s || PyStr.falsy r || PyStr.falsy d)
      with true.
    + unfold add_error. simpl. rewrite app_nil_r, union_empty_r_L. reflexivity.
    + symmetry. rewrite !orb_true_iff, !falsy_spec. tauto.
  - replace (PyStr.falsy e || PyStr.falsy s || PyStr.falsy r || PyStr.falsy d)
      with false.
    + destruct (get_exercise_resolve db e) as (o & -> & Hres). simpl.
      rewrite <- Hres.
      destruct o as [[i ex]|]; simpl.
      * unfold set_count.
        destruct (PyStr.int s) as [z|err] eqn:Hint; simpl.
        -- rewrite add_days_spec, app_nil_r. reflexivity.
        -- rewrite (int_raises s err Hint). unfold add_error. simpl.
           rewrite app_nil_r, union_empty_r_L. reflexivity.
      * unfold add_error. simpl. rewrite app_nil_r, union_empty_r_L. reflexivity.
    + symmetry. rewrite !orb_false_iff, !falsy_false. tauto.
Qed.

(** The whole loop: it never raises and never stops early; errors
    accumulate in row order, valid rows become details in row order,
    and only valid rows contribute day tokens. *)
Lemma for_rows_spec db rows st :
  for_rows db rows st
  = Ok {| errors := errors st ++ omap (row_error db) rows;
          details := details st ++ omap (row_detail db) rows;
          unique_days := unique_days st ∪ plan_days db rows |}.
Proof.
  revert st. induction rows as [|row rows IH]; intros st.
  - simpl. unfold plan_days. simpl.
    rewrite !app_nil_r, union_empty_r_L. destruct st; reflexivity.
  - simpl for_rows. rewrite row_step_spec. simpl rbind. rewrite IH. simpl.
    unfold plan_days. simpl. rewrite list_to_set_app_L.
    f_equal. f_equal.
    + rewrite <- app_assoc. f_equal. destruct (row_error db row); reflexivity.
    + rewrite <- app_assoc. f_equal. destruct (row_detail db row); reflexivity.
    + rewrite (assoc_L (∪)). reflexivity.
Qed.

Lemma row_error_messages db row m :
  row_error db row = Some m -> m ∈ row_messages.
Proof.
  destruct row as [[[e s] r] d]. unfold row_error, row_messages.
  destruct (decide _); [intros [= <-]; repeat constructor|].
  destruct (resolve db e); [|intros [= <-]; repeat constructor].
  destruct (set_count s); [discriminate|intros [= <-]; repeat constructor].
Qed.

Lemma row_detail_valid db row :
  row_valid db row = true <-> is_Some (row_detail db row).
Proof.
  destruct row as [[[e s] r] d]. unfold row_detail, row_valid, row_error.
  destruct (decide _); [split; [discriminate|intros [? [=]]]|].
  destruct (resolve db e); [|split; [discriminate|intros [? [=]]]].
  destruct (set_count s); [|split; [discriminate|intros [? [=]]]].
  split; eauto.
Qed.

Lemma omap_row_error_nil db rows :
  omap (row_error db) rows = [] <-> Forall (fun row => row_valid db row = true) rows.
Proof.
  induction rows as [|row rows IH]; simpl.
  - split; auto.
  - unfold row_valid at 1. destruct (row_error db row) eqn:E.
    + split; [discriminate|]. intros H. inversion H as [|? ? Hr _]; subst.
      rewrite E in Hr. discriminate.
    + rewrite IH. split; [intros H; constructor; [rewrite E|]; auto|].
      intros H. inversion H; subst. assumption.
Qed.

Lemma omap_row_detail_length db rows :
  Forall (fun row => row_valid db row = true) rows ->
  length (omap (row_detail db) rows) = length rows.
Proof.
  induction 1 as [|row rows Hr _ IH]; simpl; [reflexivity|].
  apply row_detail_valid in Hr as [detail Hd].
  change (omap (row_detail db) (row :: rows))
    with (match row_detail db row with
          | Some d => d :: omap (row_detail db) rows
          | None => omap (row_detail db) rows
          end).
  rewrite Hd. simpl. f_equal. exact IH.
Qed.

Lemma omap_row_detail_nil db rows :
  Forall (fun row => row_valid db row = false) rows ->
  omap (row_detail db) rows = [].
Proof.
  induction 1 as [|row rows Hr _ IH]; simpl; [reflexivity|].
  destruct (row_detail db row) eqn:E; [|exact IH].
  assert (row_valid db row = true) by (apply row_detail_valid; eauto).
  congruence.
Qed.

Lemma plan_days_invalid db rows :
  Forall (fun row => row_valid db row = false) rows -> plan_days db rows = ∅.
Proof.
  unfold plan_days. induction 1 as [|row rows Hr _ IH]; simpl; [reflexivity|].
  unfold row_days at 1. rewrite Hr. simpl. exact IH.
Qed.

Lemma max_training_days_ok table :
  max_training_days table
  = Ok (match table !! "max_training_days" with
        | Some v => match PyStr.int v with
                    | Ok n => n
                    | Raise _ => 6%Z
                    end
        | None => 6%Z
        end).
Proof.
  unfold max_training_days, SystemConfig.get_config.
  destruct (table !! "max_training_days") as [v|]; [|reflexivity].
  destruct (PyStr.int v) as [n|e] eqn:E; [reflexivity|].
  rewrite (int_raises v e E). reflexivity.
Qed.
End PlanFacts.

(** ** The request as a whole *)

Section CreatePlanFacts.
Import Trainer PlanSpec.

(** [create_plan] on a POST for an existing member, in one step. *)
Lemma create_plan_post db current_user member_id form :
  is_Some (members db !! member_id) ->
  create_plan db current_user POST member_id form
  = Ok (match violations db form, omap (row_detail db) (rows_of form) with
        | [], _ :: _ =>
            (with_plan db current_user member_id form,
             [(msg_plan_created, "success")], Redirect "trainer.dashboard")
        | [], [] => (db, danger [msg_add_exercise], form_page)
        | _ :: _, _ => (db, danger (violations db form), form_page)
        end).
Proof.
  intros [m Hm]. unfold create_plan. rewrite Hm.
  fold (rows_of form). rewrite for_rows_spec. simpl rbind.
  rewrite max_training_days_ok. simpl rbind.
  cbv zeta. cbn [errors details unique_days]. rewrite !union_empty_l_L.
  fold (configured_cap (system_config db)).
  unfold violations, day_count_error, form_page. cbv zeta.
  destruct (configured_cap (system_config db) <? _)%Z.
  - rewrite app_assoc.
    destruct ((_ ++ omap (row_error db) (rows_of form)) ++ _) eqn:E.
    + apply app_eq_nil in E as [_ E]. discriminate E.
    + reflexivity.
  - rewrite app_nil_r.
    destruct (_ ++ omap (row_error db) (rows_of form)); [|reflexivity].
    simpl. unfold with_plan.
    destruct (omap (row_detail db) (rows_of form)); reflexivity.
Qed.
End CreatePlanFacts.

Section Outcomes.
Import Trainer PlanSpec.

(** The three ways a POST for an existing member ends. *)
Lemma create_plan_outcome db current_user member_id form :
  is_Some (members db !! member_id) ->
  exists db' flashes response,
    create_plan db current_user POST member_id form = Ok (db', flashes, response)
    /\ ((violations db form = []
         /\ omap (row_detail db) (rows_of form) <> []
         /\ db' = with_plan db current_user member_id form
         /\ flashes = [(msg_plan_created, "success")]
         /\ response = Redirect "trainer.dashboard")
        \/ (violations db form = []
            /\ omap (row_detail db) (rows_of form) = []
            /\ db' = db
            /\ flashes = danger [msg_add_exercise]
            /\ response = form_page)
        \/ (violations db form <> []
            /\ db' = db
            /\ flashes = danger (violations db form)
            /\ response = form_page)).
Proof.
  intros Hm. rewrite (create_plan_post _ _ _ _ Hm).
  destruct (violations db form) as [|v vs] eqn:Ev;
    [destruct (omap (row_detail db) (rows_of form)) as [|w ws] eqn:Ed|].
  - eexists _, _, _. split; [reflexivity|]. right. left. auto.
  - eexists _, _, _. split; [reflexivity|]. left.
    split; [reflexivity|]. split; [discriminate|]. auto.
  - eexists _, _, _. split; [reflexivity|]. right. right.
    split; [discriminate|]. auto.
Qed.

Lemma danger_elem m category (l : list string) :
  (m, category) ∈ danger l <-> category = "danger" /\ m ∈ l.
Proof.
  unfold danger. rewrite list_elem_of_fmap. split.
  - intros (x & [= -> ->] & Hx). auto.
  - intros [-> Hm]. exists m. auto.
Qed.

(** The day-count message is none of the other messages. *)
Lemma msg_too_many_days_fresh cap n :
  msg_too_many_days cap n ∉ msg_add_exercise :: row_messages.
Proof.
  unfold msg_too_many_days, row_messages. simpl.
  rewrite !elem_of_cons, elem_of_nil.
  intros [H|[H|[H|[H|[]]]]]; discriminate H.
Qed.

Lemma msg_add_exercise_fresh : msg_add_exercise ∉ row_messages.
Proof.
  unfold row_messages. rewrite !elem_of_cons, elem_of_nil.
  intros [H|[H|[H|[]]]]; discriminate H.
Qed.

Lemma row_errors_messages db (rows : list Row) m :
  m ∈ omap (row_error db) rows -> m ∈ row_messages.
Proof.
  rewrite list_elem_of_omap. intros (row & _ & Hrow).
  eapply row_error_messages. exact Hrow.
Qed.

Lemma day_count_error_spec db form :
  let cap := configured_cap (system_config db) in
  let n := size (plan_days db (rows_of form)) in
  ((cap < Z.of_nat n)%Z -> day_count_error db form = [msg_too_many_days cap n])
  /\ ((Z.of_nat n <= cap)%Z -> day_count_error db form = []).
Proof.
  unfold day_count_error. cbv zeta.
  destruct (_ <? _)%Z eqn:E; unbool; split; intros; (reflexivity || lia).
Qed.

(** When the day-count message is among the violations, the cap is
    exceeded. *)
Lemma too_many_days_in_violations db form :
  msg_too_many_days (configured_cap (system_config db))
    (size (plan_days db (rows_of form))) ∈ violations db form
  <-> (configured_cap (system_config db)
       < Z.of_nat (size (plan_days db (rows_of form))))%Z.
Proof.
  pose proof (msg_too_many_days_fresh (configured_cap (system_config db))
                (size (plan_days db (rows_of form)))) as Hfresh.
  pose proof (day_count_error_spec db form) as [Hgt Hle]. cbv zeta in Hgt, Hle.
  unfold violations. rewrite !elem_of_app. split.
  - intros [Hin|[Hin|Hin]].
    + exfalso. apply Hfresh. destruct (exercise_ids form).
      * apply list_elem_of_singleton in Hin. rewrite Hin. constructor.
      * apply elem_of_nil in Hin. destruct Hin.
    + exfalso. apply Hfresh. constructor. eapply row_errors_messages. exact Hin.
    + destruct (Z.lt_ge_cases (configured_cap (system_config db))
                  (Z.of_nat (size (plan_days db (rows_of form))))) as [Hlt|Hge];
        [exact Hlt|].
      rewrite (Hle Hge) in Hin. apply elem_of_nil in Hin. destruct Hin.
  - intros Hlt. right. right. rewrite (Hgt Hlt). constructor.
Qed.

Lemma violations_nil db form :
  violations db form = []
  <-> exercise_ids form <> []
      /\ Forall (fun row => row_valid db row = true) (rows_of form)
      /\ (Z.of_nat (size (plan_days db (rows_of form)))
          <= configured_cap (system_config db))%Z.
Proof.
  pose proof (day_count_error_spec db form) as [Hgt Hle]. cbv zeta in Hgt, Hle.
  unfold violations. split.
  - intros H. apply app_eq_nil in H as [H0 H]. apply app_eq_nil in H as [H1 H2].
    split; [destruct (exercise_ids form); [discriminate|discriminate]|].
    split; [apply omap_row_error_nil; exact H1|].
    destruct (Z.lt_ge_cases (configured_cap (system_config db))
                (Z.of_nat (size (plan_days db (rows_of form))))) as [Hlt|Hge];
      [|exact Hge].
    rewrite (Hgt Hlt) in H2. discriminate.
  - intros (H0 & H1 & H2). apply omap_row_error_nil in H1.
    rewrite H1, (Hle H2). destruct (exercise_ids form); [congruence|reflexivity].
Qed.
End Outcomes.

Section MoreOutcomes.
Import Trainer PlanSpec.

Lemma string_app_assoc (s1 s2 s3 : string) :
  (s1 +:+ s2) +:+ s3 = s1 +:+ (s2 +:+ s3).
Proof.
  induction s1 as [|c s1 IH]; [reflexivity|].
  change (String c ((s1 +:+ s2) +:+ s3) = String c (s1 +:+ (s2 +:+ s3))).
  f_equal. exact IH.
Qed.

Lemma msg_too_many_days_contains cap n :
  contains (msg_too_many_days cap n) (pretty cap)
  /\ contains (msg_too_many_days cap n) (pretty n).
Proof.
  split.
  - exists "Lịch tập vượt quá ".
    exists (" ngày tập tối đa mỗi tuần. " +:+ "Bạn đã chọn " +:+ pretty n +:+ " ngày.").
    reflexivity.
  - exists ("Lịch tập vượt quá " +:+ pretty cap
            +:+ " ngày tập tối đa mỗi tuần. " +:+ "Bạn đã chọn ").
    exists " ngày.".
    unfold msg_too_many_days. rewrite !string_app_assoc. reflexivity.
Qed.

Lemma rows_of_exercises form : rows_of form <> [] -> exercise_ids form <> [].
Proof.
  unfold rows_of. destruct (exercise_ids form); [|discriminate].
  intros H. exfalso. apply H. reflexivity.
Qed.

Lemma valid_rows_details db rows :
  rows <> [] ->
  Forall (fun row => row_valid db row = true) rows ->
  omap (row_detail db) rows <> [].
Proof.
  intros Hne Hall Hnil.
  pose proof (omap_row_detail_length db rows Hall) as Hlen.
  rewrite Hnil in Hlen. destruct rows; [congruence|discriminate].
Qed.

Lemma valid_and_invalid db rows :
  Forall (fun row => row_valid db row = true) rows ->
  Forall (fun row => row_valid db row = false) rows ->
  rows = [].
Proof.
  intros Ht Hf. destruct rows as [|row rows]; [reflexivity|].
  inversion Ht; inversion Hf; subst. congruence.
Qed.

Lemma exists_invalid db rows :
  Exists (fun row => row_valid db row = false) rows ->
  ~ Forall (fun row => row_valid db row = true) rows.
Proof.
  intros Hex Hall. apply Exists_exists in Hex as (row & Hin & Hrow).
  rewrite Forall_forall in Hall. rewrite (Hall row Hin) in Hrow. discriminate.
Qed.
End MoreOutcomes.

(** ** Plan validation *)










Example cap_from_configuration :
  Trainer.max_training_days {[ "max_training_days" := " 4 " ]} = Ok 4%Z
  /\ Trainer.max_training_days {[ "max_training_days" := "four" ]} = Ok 6%Z
  /\ Trainer.max_training_days ∅ = Ok 6%Z.
Proof. repeat split; vm_compute; reflexivity. Qed.

(** The worked example of the specification: seven rows, each naming its
    own day, against a cap of six. *)
Example seven_days_against_six :
  exists db',
    Trainer.create_plan
      (Trainer.mkDB {[ 1%Z := mkMember 1 None ]}
         {[ 1%Z := Trainer.mkExercise "Squat" ]}
         {[ "max_training_days" := "6" ]} [])
      9 Trainer.POST 1
      (Trainer.mkPlanForm "week"
         ["1"; "1"; "1"; "1"; "1"; "1"; "1"]
         ["3"; "3"; "3"; "3"; "3"; "3"; "3"]
         ["10"; "10"; "10"; "10"; "10"; "10"; "10"]
         ["monday"; "tuesday"; "wednesday"; "thursday"; "friday"; "saturday";
          "sunday"])
    = Ok (db',
          [("Lịch tập vượt quá 6 ngày tập tối đa mỗi tuần. Bạn đã chọn 7 ngày.",
            "danger")],
          PlanSpec.form_page)
    /\ Trainer.workout_plans db' = [].
Proof. eexists. split; vm_compute; reflexivity. Qed.

(** Six distinct days, written in mixed case and with repeats, against a
    cap of six: the plan is stored. *)
Example six_days_against_six :
  exists db',
    Trainer.create_plan
      (Trainer.mkDB {[ 1%Z := mkMember 1 None ]}
         {[ 1%Z := Trainer.mkExercise "Squat" ]} ∅ [])
      9 Trainer.POST 1
      (Trainer.mkPlanForm "week" ["1"; "1"] ["3"; "5"] ["10"; "8-12"]
         ["Monday, tuesday ,WEDNESDAY"; "thursday,friday,saturday,monday,"])
    = Ok (db', [(Trainer.msg_plan_created, "success")],
          Trainer.Redirect "trainer.dashboard")
    /\ length (Trainer.workout_plans db') = 1.
Proof. eexists. split; vm_compute; reflexivity. Qed.

(** * Further properties of the code *)

(** ** Extending twice and extending once *)

Section TwoSteps.
Local Open Scope Z_scope.

Lemma _add_months_ok_inv d n d' :
  valid_date d = true ->
  Cashier._add_months d n = Ok d' ->
  valid_date d' = true
  /\ year d' = year d + (month d - 1 + n) / 12
  /\ month d' = (month d - 1 + n) mod 12 + 1
  /\ day d' = Z.min (day d) (MembershipSpec.last_day_of_month (year d') (month d')).
Proof.
  intros Hd Heq. rewrite _add_months_unfold in Heq by exact Hd.
  unfold date_new in Heq.
  destruct (check_date_fields _ _ _) eqn:Hc; [|discriminate].
  injection Heq as <-. unfold valid_date. cbn [year month day]. auto.
Qed.

Lemma _add_months_ok_intro d n :
  valid_date d = true ->
  1 <= year d + (month d - 1 + n) / 12 <= 9999 ->
  Cashier._add_months d n
  = Ok (mkdate (year d + (month d - 1 + n) / 12) ((month d - 1 + n) mod 12 + 1)
          (Z.min (day d)
             (MembershipSpec.last_day_of_month
                (year d + (month d - 1 + n) / 12) ((month d - 1 + n) mod 12 + 1)))).
Proof.
  intros Hd Hy. pose proof (valid_date_fields d Hd) as (_ & Hm & Hday).
  rewrite _add_months_unfold by exact Hd.
  rewrite date_new_clamped by (try divlia; lia).
  replace ((1 <=? _) && (_ <=? 9999)) with true; [reflexivity|].
  symmetry. apply andb_true_iff. split; apply Z.leb_le; lia.
Qed.
End TwoSteps.

(** X1: extending by [a] months and then by [b] months reaches the same
    year and month as extending by [a + b] months at once, on a day that
    is never later; the two agree when the start day is at most the
    28th. Whenever the two steps succeed, so does the single one. *)
Theorem add_months_twice (d d1 d2 : date) (a b : Z) :
  valid_date d = true ->
  Cashier._add_months d a = Ok d1 ->
  Cashier._add_months d1 b = Ok d2 ->
  exists d3,
    Cashier._add_months d (a + b) = Ok d3
    /\ year d3 = year d2
    /\ month d3 = month d2
    /\ (day d2 <= day d3)%Z
    /\ ((day d <= 28)%Z -> d2 = d3).
Proof.
  intros Hd H1 H2.
  destruct (_add_months_ok_inv d a d1 Hd H1) as (Hv1 & Hy1 & Hm1 & Hd1).
  destruct (_add_months_ok_inv d1 b d2 Hv1 H2) as (Hv2 & Hy2 & Hm2 & Hd2).
  pose proof (valid_date_fields d Hd) as (_ & Hm & Hday).
  pose proof (valid_date_fields d2 Hv2) as (Hyr2 & _ & _).
  assert ((year d + (month d - 1 + (a + b)) / 12 = year d2)%Z) as Ey
    by (rewrite Hy2, Hy1, Hm1; divlia).
  assert (((month d - 1 + (a + b)) mod 12 + 1 = month d2)%Z) as Em
    by (rewrite Hm2, Hm1; divlia).
  eexists. split; [apply _add_months_ok_intro; [exact Hd|lia]|].
  cbn [year month day]. rewrite Ey, Em.
  pose proof (last_day_bounds (year d1) (month d1)) as Hl1.
  pose proof (last_day_bounds (year d2) (month d2)) as Hl2.
  split; [reflexivity|]. split; [reflexivity|]. split; [lia|].
  intros H28. destruct d2 as [y2 m2 dd2]. cbn [year month day] in *.
  f_equal. lia.
Qed.

Lemma add_months_twice_witness :
  exists d3,
    Cashier._add_months (mkdate 2023 1 31) (1 + 1) = Ok d3
    /\ year d3 = 2023%Z
    /\ month d3 = 3%Z
    /\ (28 <= day d3)%Z.
Proof.
  destruct (add_months_twice (mkdate 2023 1 31) (mkdate 2023 2 28) (mkdate 2023 3 28) 1 1)
    as (d3 & H3 & Hy & Hm & Hday & _).
  - reflexivity.
  - reflexivity.
  - reflexivity.
  - exists d3. auto.
Defined.

(** The loss is real: two single months from 31 January end on 28 March,
    two months at once on 31 March. *)
Example two_single_months_lose_days :
  (try! d1 := Cashier._add_months (mkdate 2023 1 31) 1 in Cashier._add_months d1 1)
  = Ok (mkdate 2023 3 28)
  /\ Cashier._add_months (mkdate 2023 1 31) 2 = Ok (mkdate 2023 3 31).
Proof. split; reflexivity. Qed.

(** ** Users *)

Section UserFacts.
Import Trainer Users.

Lemma lower_char_idem c : PyStr.lower_char (PyStr.lower_char c) = PyStr.lower_char c.
Proof. destruct c as [[] [] [] [] [] [] [] []]; reflexivity. Qed.

Lemma lower_idem s : PyStr.lower (PyStr.lower s) = PyStr.lower s.
Proof.
  induction s as [|c s IH]; [reflexivity|].
  simpl. rewrite lower_char_idem, IH. reflexivity.
Qed.

Lemma head_filter_Some {B : Type} (P : B -> Prop) `{!forall x, Decision (P x)}
    (l : list B) (x : B) :
  head (filter P l) = Some x -> x ∈ l /\ P x.
Proof.
  intros Hh. assert (x ∈ filter P l) as Hin.
  { destruct (filter P l) as [|y ys]; [discriminate|].
    injection Hh as ->. constructor. }
  apply list_elem_of_filter in Hin. tauto.
Qed.

Lemma head_filter_None {B : Type} (P : B -> Prop) `{!forall x, Decision (P x)}
    (l : list B) :
  head (filter P l) = None <-> forall x, x ∈ l -> ~ P x.
Proof.
  split.
  - intros Hh x Hin HP.
    assert (x ∈ filter P l) as Hf by (apply list_elem_of_filter; auto).
    destruct (filter P l); [inversion Hf|discriminate].
  - intros Hh. destruct (filter P l) as [|y ys] eqn:E; [reflexivity|].
    exfalso. assert (y ∈ filter P l) as Hf by (rewrite E; constructor).
    apply list_elem_of_filter in Hf as [HP Hin]. exact (Hh y Hin HP).
Qed.

(** The first match of a filter on a list that ends with a match and has
    none before it. *)
Lemma head_filter_snoc {B : Type} (P : B -> Prop) `{!forall x, Decision (P x)}
    (l : list B) (x : B) :
  (forall y, y ∈ l -> ~ P y) -> P x -> head (filter P (l ++ [x])) = Some x.
Proof.
  intros Hl Hx. rewrite filter_app.
  replace (filter P l) with (@nil B).
  - simpl. rewrite filter_cons_True by exact Hx. reflexivity.
  - symmetry. pose proof (proj2 (head_filter_None P l) Hl) as Hnone.
    destruct (filter P l); [reflexivity|discriminate].
Qed.

(** With distinct keys, rows with the same key are the same row. *)
Lemma NoDup_fmap_eq {B K : Type} (f : B -> K) (l : list B) (x y : B) :
  NoDup (f <$> l) -> x ∈ l -> y ∈ l -> f x = f y -> x = y.
Proof.
  induction l as [|z l IH]; intros Hnd Hx Hy Hf; [inversion Hx|].
  rewrite fmap_cons in Hnd. apply NoDup_cons in Hnd as [Hz Hnd].
  apply elem_of_cons in Hx as [->|Hx]; apply elem_of_cons in Hy as [->|Hy].
  - reflexivity.
  - exfalso. apply Hz. rewrite Hf. apply list_elem_of_fmap_2. exact Hy.
  - exfalso. apply Hz. rewrite <- Hf. apply list_elem_of_fmap_2. exact Hx.
  - apply IH; assumption.
Qed.

Lemma role_redirects_valid s :
  s ∈ valid_roles <-> is_Some (ROLE_REDIRECTS !! s).
Proof.
  unfold valid_roles, ROLE_REDIRECTS.
  rewrite !elem_of_cons, elem_of_nil, !lookup_insert, lookup_singleton.
  unfold is_Some. repeat case_decide; subst; split; intros Hx.
  all: try (eexists; reflexivity).
  all: try (destruct Hx as [? Hx]; discriminate Hx).
  all: try (repeat (first [left; reflexivity | right]); fail).
  all: destruct Hx as [Hx|[Hx|[Hx|[Hx|[]]]]]; congruence.
Qed.

Lemma role_redirects_range s url :
  ROLE_REDIRECTS !! s = Some url ->
  url ∈ ["/reception/dashboard"; "/trainer/dashboard"; "/cashier/dashboard";
         "/admin/dashboard"].
Proof.
  unfold ROLE_REDIRECTS. rewrite !lookup_insert, lookup_singleton.
  repeat case_decide; intros [= <-]; repeat constructor.
Qed.

Lemma valid_roles_lower s : s ∈ valid_roles -> PyStr.lower s = s.
Proof.
  unfold valid_roles. rewrite !elem_of_cons, elem_of_nil.
  intros [->|[->|[->|[->|[]]]]]; reflexivity.
Qed.
End UserFacts.

(** X2: the page a role is sent to does not depend on the letter case of
    the role; it is one of the four dashboards exactly when the
    lowercased role is one of the four roles that [create_user] and
    [edit_user] accept, and the login page for every other role. *)
Theorem redirect_for_role_spec (role : string) :
  Users._redirect_for_role (PyStr.lower role) = Users._redirect_for_role role
  /\ (PyStr.lower role ∈ Users.valid_roles
      <-> Users._redirect_for_role role <> Users.login_url)
  /\ (PyStr.lower role ∈ Users.valid_roles ->
        Users._redirect_for_role role
        ∈ ["/reception/dashboard"; "/trainer/dashboard"; "/cashier/dashboard";
           "/admin/dashboard"])
  /\ (PyStr.lower role ∉ Users.valid_roles ->
        Users._redirect_for_role role = "/login").
Proof.
  unfold Users._redirect_for_role. rewrite lower_idem.
  split; [reflexivity|].
  pose proof (role_redirects_valid (PyStr.lower role)) as Hv.
  pose proof (role_redirects_range (PyStr.lower role)) as Hr.
  destruct (Users.ROLE_REDIRECTS !! PyStr.lower role) as [url|] eqn:E; simpl.
  - assert (url <> Users.login_url) as Hne.
    { specialize (Hr url eq_refl). unfold Users.login_url.
      rewrite !elem_of_cons, elem_of_nil in Hr.
      destruct Hr as [->|[->|[->|[->|[]]]]]; discriminate. }
    split; [split; [intros _; exact Hne|intros _; apply Hv; eauto]|].
    split; [intros _; apply Hr; reflexivity|].
    intros Hn. exfalso. apply Hn, Hv. eauto.
  - split; [split; [intros H; apply Hv in H as [? [=]]|intros H; exfalso; apply H; reflexivity]|].
    split; [intros H; apply Hv in H as [? [=]]|reflexivity].
Qed.

(** X3: a request to [login] by a visitor who is not signed in opens a
    session only on a POST, only for a stored user whose name is the
    trimmed name field, whose password hash matches the password field
    and whose account is active; the visitor is then sent to the page of
    that user's role. *)
Theorem login_admits_only_active_users
    (check_password_hash : string -> string -> bool)
    (users : list Users.User) (method : Trainer.Method)
    (form_username form_password : string)
    (user : Users.User) (flashes : list (string * string)) (response : Trainer.Response) :
  Users.login check_password_hash users None method form_username form_password
  = (Some user, flashes, response) ->
  method = Trainer.POST
  /\ user ∈ users
  /\ Users.username user = PyStr.strip form_username
  /\ check_password_hash (Users.password_hash user) form_password = true
  /\ Users.is_active user = true
  /\ response = Trainer.Redirect (Users._redirect_for_role (Users.role user)).
Proof.
  unfold Users.login, Users.check_password, Users.by_username.
  destruct method; [discriminate|].
  destruct (head _) as [u|] eqn:Hu; [|discriminate].
  apply head_filter_Some in Hu as [Hin Hname].
  destruct (check_password_hash _ _) eqn:Hc; [|discriminate].
  destruct (Users.is_active u) eqn:Ha; simpl; [|discriminate].
  intros [= <- _ <-]. repeat split; (assumption || reflexivity).
Qed.

Lemma login_admits_only_active_users_witness :
  Trainer.POST = Trainer.POST
  /\ Users.mkUser 1 "anna" "anna@gym.test" "s3cret!" "trainer" true
     ∈ [Users.mkUser 1 "anna" "anna@gym.test" "s3cret!" "trainer" true]
  /\ "anna" = PyStr.strip " anna "
  /\ String.eqb "s3cret!" "s3cret!" = true
  /\ true = true
  /\ Trainer.Redirect "/trainer/dashboard"
     = Trainer.Redirect (Users._redirect_for_role "trainer").
Proof.
  apply (login_admits_only_active_users String.eqb
           [Users.mkUser 1 "anna" "anna@gym.test" "s3cret!" "trainer" true]
           Trainer.POST " anna " "s3cret!"
           (Users.mkUser 1 "anna" "anna@gym.test" "s3cret!" "trainer" true)
           [(Users.msg_logged_in, "success")]
           (Trainer.Redirect "/trainer/dashboard")).
  vm_compute. reflexivity.
Defined.

Section UserTableFacts.
Import Trainer Users Invariants.

Lemma error_if_nil c m : error_if c m = [] <-> c = false.
Proof. destruct c; simpl; split; congruence. Qed.

Lemma by_username_None users name :
  by_username users name = None <-> name ∉ (username <$> users).
Proof.
  unfold by_username. rewrite head_filter_None, list_elem_of_fmap. split.
  - intros H (u & -> & Hin). exact (H u Hin eq_refl).
  - intros H u Hin Hu. apply H. exists u. auto.
Qed.

Lemma by_email_None users address :
  by_email users address = None <-> address ∉ (email <$> users).
Proof.
  unfold by_email. rewrite head_filter_None, list_elem_of_fmap. split.
  - intros H (u & -> & Hin). exact (H u Hin eq_refl).
  - intros H u Hin Hu. apply H. exists u. auto.
Qed.

Lemma by_id_Some users id user :
  by_id users id = Some user -> user ∈ users /\ user_id user = id.
Proof.
  unfold by_id. intros H.
  apply (head_filter_Some (fun u => user_id u = id)) in H. exact H.
Qed.

Lemma by_id_unique users user :
  NoDup (user_id <$> users) -> user ∈ users -> by_id users (user_id user) = Some user.
Proof.
  intros Hnd Hin. unfold by_id.
  destruct (head _) as [u|] eqn:E.
  - apply head_filter_Some in E as [Hu Hid]. f_equal.
    eapply NoDup_fmap_eq; eauto.
  - exfalso. rewrite head_filter_None in E. exact (E user Hin eq_refl).
Qed.

(** With distinct primary keys, [update_row] rewrites one row in place. *)
Lemma update_row_split users id user user' :
  NoDup (user_id <$> users) -> user ∈ users -> user_id user = id ->
  exists l1 l2,
    users = l1 ++ user :: l2
    /\ update_row users id user' = l1 ++ user' :: l2
    /\ (forall u, u ∈ l1 ++ l2 -> user_id u <> id).
Proof.
  intros Hnd Hin Hid.
  apply list_elem_of_split in Hin as (l1 & l2 & ->).
  exists l1, l2. split; [reflexivity|].
  rewrite fmap_app, fmap_cons in Hnd.
  apply NoDup_app in Hnd as (Hn1 & Hdisj & Hn2).
  apply NoDup_cons in Hn2 as [Hnot2 Hn2].
  assert (forall u, u ∈ l1 ++ l2 -> user_id u <> id) as Hother.
  { intros u [Hu|Hu]%elem_of_app Heq.
    - apply (Hdisj (user_id u)); [apply list_elem_of_fmap_2; exact Hu|].
      rewrite Heq, <- Hid. constructor.
    - apply Hnot2. rewrite Hid, <- Heq. apply list_elem_of_fmap_2. exact Hu. }
  split; [|exact Hother].
  unfold update_row. rewrite fmap_app, fmap_cons.
  rewrite decide_True by exact Hid. f_equal; [|f_equal].
  - rewrite <- (list_fmap_id l1) at 2. apply list_fmap_ext.
    intros i u Hu. rewrite decide_False; [reflexivity|].
    apply Hother, elem_of_app. left. eapply list_elem_of_lookup_2. exact Hu.
  - rewrite <- (list_fmap_id l2) at 2. apply list_fmap_ext.
    intros i u Hu. rewrite decide_False; [reflexivity|].
    apply Hother, elem_of_app. right. eapply list_elem_of_lookup_2. exact Hu.
Qed.

Lemma NoDup_replace_middle {K : Type} (l1 l2 : list K) (k k' : K) :
  NoDup (l1 ++ k :: l2) -> k' ∉ l1 ++ l2 -> NoDup (l1 ++ k' :: l2).
Proof.
  intros Hnd Hk'.
  apply NoDup_app in Hnd as (Hn1 & Hdisj & Hn2).
  apply NoDup_cons in Hn2 as [Hnot2 Hn2].
  apply NoDup_app. split; [exact Hn1|]. split.
  - intros x Hx1 [->|Hx2]%elem_of_cons.
    + apply Hk', elem_of_app. left. exact Hx1.
    + apply (Hdisj x Hx1). apply elem_of_cons. right. exact Hx2.
  - apply NoDup_cons. split; [|exact Hn2].
    intros H2. apply Hk', elem_of_app. right. exact H2.
Qed.
End UserTableFacts.

Section UserRequests.
Import Trainer Users Invariants.

Lemma valid_role_dashboard r : r ∈ valid_roles -> _redirect_for_role r <> login_url.
Proof.
  intros Hr. unfold _redirect_for_role. rewrite (valid_roles_lower r Hr).
  pose proof (proj1 (role_redirects_valid r) Hr) as [url Hurl].
  rewrite Hurl. simpl. pose proof (role_redirects_range r url Hurl) as Hrange.
  rewrite !elem_of_cons, elem_of_nil in Hrange. unfold login_url.
  destruct Hrange as [->|[->|[->|[->|[]]]]]; discriminate.
Qed.

Lemma head_filter_unique {B K : Type} `{EqDecision K} (f : B -> K) (l : list B) (x : B) :
  NoDup (f <$> l) -> x ∈ l -> head (filter (fun u => f u = f x) l) = Some x.
Proof.
  intros Hnd Hin.
  destruct (head _) as [u|] eqn:E.
  - apply head_filter_Some in E as [Hu Hf]. f_equal.
    eapply NoDup_fmap_eq; eauto.
  - exfalso. rewrite head_filter_None in E. exact (E x Hin eq_refl).
Qed.

(** What an empty error list of [create_user] says about the form. *)
Lemma create_user_errors_nil users form :
  create_user_errors users form = [] ->
  PyStr.strip (uf_username form) <> EmptyString
  /\ PyStr.strip (uf_email form) <> EmptyString
  /\ 6 <= PyLen.len (uf_password form)
  /\ PyStr.strip (uf_role form) ∈ valid_roles
  /\ (PyStr.strip (uf_username form) ∉ (username <$> users))
  /\ (PyStr.strip (uf_email form) ∉ (email <$> users)).
Proof.
  unfold create_user_errors. cbv zeta. intros H.
  repeat (apply app_eq_nil in H as [?%error_if_nil H]).
  apply error_if_nil in H.
  repeat split.
  - apply falsy_false. assumption.
  - apply falsy_false. assumption.
  - match goal with Hp : (_ || _) = false |- _ =>
      apply orb_false_iff in Hp as [_ Hp]; apply Nat.ltb_ge in Hp; exact Hp end.
  - match goal with Hr : negb (bool_decide (_ ∈ valid_roles)) = false |- _ =>
      apply negb_false_iff, bool_decide_eq_true in Hr; exact Hr end.
  - apply by_username_None.
    match goal with Hu : bool_decide (is_Some (by_username _ _)) = false |- _ =>
      apply bool_decide_eq_false in Hu;
      destruct (by_username users (PyStr.strip (uf_username form)));
        [exfalso; apply Hu; eauto|reflexivity] end.
  - apply by_email_None.
    apply bool_decide_eq_false in H.
    destruct (by_email users (PyStr.strip (uf_email form)));
      [exfalso; apply H; eauto|reflexivity].
Qed.
End UserRequests.

(** X4: [create_user] either stores nothing and flashes one message per
    failed check, or appends exactly one user whose name and address are
    non-empty and new to the table, whose role is one of the four roles,
    whose password has at least six characters and is stored hashed, and
    who is active; primary keys, names and addresses stay pairwise
    distinct, and the role of the new user leads to a dashboard. *)
Theorem create_user_keeps_keys
    (generate_password_hash : string -> string)
    (users : list Users.User) (new_id : Z) (form : Users.UserForm) :
  Invariants.users_ok users ->
  new_id ∉ (Users.user_id <$> users) ->
  exists users' flashes response,
    Users.create_user generate_password_hash users new_id Trainer.POST form
    = (users', flashes, response)
    /\ Invariants.users_ok users'
    /\ ((Users.create_user_errors users form <> []
         /\ users' = users
         /\ flashes = Trainer.danger (Users.create_user_errors users form)
         /\ response = Trainer.Render "admin/user_create.html")
        \/ (Users.create_user_errors users form = []
            /\ response = Trainer.Redirect "admin.users"
            /\ exists user,
                 users' = users ++ [user]
                 /\ Users.user_id user = new_id
                 /\ Users.username user = PyStr.strip (Users.uf_username form)
                 /\ Users.username user <> EmptyString
                 /\ Users.email user = PyStr.strip (Users.uf_email form)
                 /\ Users.email user <> EmptyString
                 /\ Users.role user ∈ Users.valid_roles
                 /\ Users._redirect_for_role (Users.role user) <> Users.login_url
                 /\ Users.is_active user = true
                 /\ 6 <= PyLen.len (Users.uf_password form)
                 /\ Users.password_hash user
                    = generate_password_hash (Users.uf_password form))).
Proof.
  intros (Hid & Hname & Hmail) Hnew. unfold Users.create_user.
  destruct (Users.create_user_errors users form) as [|e es] eqn:E.
  - apply create_user_errors_nil in E as (Hu & He & Hp & Hr & Hfresh_u & Hfresh_e).
    eexists _, _, _. split; [reflexivity|]. split.
    + unfold Invariants.users_ok. rewrite !fmap_app. simpl.
      repeat split; apply NoDup_app; (split; [assumption|]);
        (split; [|apply NoDup_singleton]);
        intros x Hx Hx'%list_elem_of_singleton; subst x; tauto.
    + right. split; [reflexivity|]. split; [reflexivity|].
      eexists. split; [reflexivity|]. simpl.
      repeat split; try assumption. apply valid_role_dashboard. exact Hr.
  - eexists _, _, _. split; [reflexivity|]. split; [repeat split; assumption|].
    left. repeat split. discriminate.
Qed.

Lemma create_user_keeps_keys_witness :
  exists users' flashes response,
    Users.create_user (fun p => "hash:" +:+ p)
      [Users.mkUser 1 "admin" "admin@gym.test" "hash:admin123" "admin" true]
      2 Trainer.POST (Users.mkUserForm " anna " "anna@gym.test" "s3cret" "trainer")
    = (users', flashes, response)
    /\ Invariants.users_ok users'.
Proof.
  destruct (create_user_keeps_keys (fun p => "hash:" +:+ p)
              [Users.mkUser 1 "admin" "admin@gym.test" "hash:admin123" "admin" true]
              2 (Users.mkUserForm " anna " "anna@gym.test" "s3cret" "trainer"))
    as (users' & flashes & response & Hrun & Hok & _).
  - repeat split; simpl; apply NoDup_singleton.
  - simpl. rewrite list_elem_of_singleton. lia.
  - exists users', flashes, response. split; [exact Hrun|exact Hok].
Defined.

(** X5: a user that [create_user] has just stored can sign in with the
    name and the password of the form, and lands on the dashboard of the
    role, provided a hash checks against the password it was made from. *)
Theorem created_user_can_login
    (generate_password_hash : string -> string)
    (check_password_hash : string -> string -> bool)
    (users : list Users.User) (new_id : Z) (form : Users.UserForm) :
  (forall p, check_password_hash (generate_password_hash p) p = true) ->
  Users.create_user_errors users form = [] ->
  exists user,
    Users.login check_password_hash
      (Users.create_user generate_password_hash users new_id Trainer.POST form).1.1
      None Trainer.POST (Users.uf_username form) (Users.uf_password form)
    = (Some user, [(Users.msg_logged_in, "success")],
       Trainer.Redirect (Users._redirect_for_role (Users.role user)))
    /\ Users.user_id user = new_id
    /\ Users._redirect_for_role (Users.role user) <> Users.login_url.
Proof.
  intros Hhash E. unfold Users.create_user. rewrite E. simpl.
  apply create_user_errors_nil in E as (Hu & He & Hp & Hr & Hfresh_u & Hfresh_e).
  exists (Users.mkUser new_id (PyStr.strip (Users.uf_username form))
            (PyStr.strip (Users.uf_email form))
            (generate_password_hash (Users.uf_password form))
            (PyStr.strip (Users.uf_role form)) true).
  split.
  - unfold Users.login, Users.by_username.
    rewrite head_filter_snoc; [| |reflexivity].
    + unfold Users.check_password. simpl. rewrite Hhash. reflexivity.
    + intros y Hy Hname. apply Hfresh_u. rewrite <- Hname.
      apply list_elem_of_fmap_2. exact Hy.
  - simpl. split; [reflexivity|]. apply valid_role_dashboard. exact Hr.
Qed.

Lemma created_user_can_login_witness :
  exists user,
    Users.login (fun h p => String.eqb h ("hash:" +:+ p))
      (Users.create_user (fun p => "hash:" +:+ p) [] 1 Trainer.POST
         (Users.mkUserForm "anna" "anna@gym.test" "s3cret" "cashier")).1.1
      None Trainer.POST "anna" "s3cret"
    = (Some user, [(Users.msg_logged_in, "success")],
       Trainer.Redirect (Users._redirect_for_role (Users.role user)))
    /\ Users.user_id user = 1%Z
    /\ Users._redirect_for_role (Users.role user) <> Users.login_url.
Proof.
  apply (created_user_can_login (fun p => "hash:" +:+ p)
           (fun h p => String.eqb h ("hash:" +:+ p)) [] 1
           (Users.mkUserForm "anna" "anna@gym.test" "s3cret" "cashier")).
  - intros p. apply String.eqb_refl.
  - reflexivity.
Defined.

Section EditFacts.
Import Trainer Users Invariants.

Lemma edit_user_errors_nil users id form :
  edit_user_errors users id form = [] ->
  PyStr.strip (uf_username form) <> EmptyString
  /\ PyStr.strip (uf_email form) <> EmptyString
  /\ PyStr.strip (uf_role form) ∈ valid_roles
  /\ (forall e, by_username users (PyStr.strip (uf_username form)) = Some e ->
        user_id e = id)
  /\ (forall e, by_email users (PyStr.strip (uf_email form)) = Some e ->
        user_id e = id).
Proof.
  unfold edit_user_errors. cbv zeta. intros H.
  apply app_eq_nil in H as [H1%error_if_nil H].
  apply app_eq_nil in H as [H2%error_if_nil H].
  apply app_eq_nil in H as [H3%error_if_nil H].
  apply app_eq_nil in H as [H4%error_if_nil H5%error_if_nil].
  split; [apply falsy_false; exact H1|].
  split; [apply falsy_false; exact H2|].
  split; [apply negb_false_iff, bool_decide_eq_true in H3; exact H3|].
  split.
  - intros e He. rewrite He in H4.
    apply negb_false_iff, bool_decide_eq_true in H4. exact H4.
  - intros e He. rewrite He in H5.
    apply negb_false_iff, bool_decide_eq_true in H5. exact H5.
Qed.

(** A key that only the edited row may hold is new to the other rows. *)
Lemma key_free_elsewhere {K : Type} `{EqDecision K} (f : User -> K)
    (l1 l2 : list User) (user : User) (id : Z) (k : K) :
  NoDup (f <$> (l1 ++ user :: l2)) ->
  (forall u, u ∈ l1 ++ l2 -> user_id u <> id) ->
  (forall e, head (filter (fun u => f u = k) (l1 ++ user :: l2)) = Some e ->
     user_id e = id) ->
  k ∉ f <$> (l1 ++ l2).
Proof.
  intros Hnd Hother Hcheck (u & -> & Hu)%list_elem_of_fmap.
  assert (u ∈ l1 ++ user :: l2) as Hin.
  { apply elem_of_app in Hu as [Hu|Hu]; apply elem_of_app; [left; exact Hu|].
    right. apply elem_of_cons. right. exact Hu. }
  apply (Hother u Hu). apply Hcheck.
  apply head_filter_unique; assumption.
Qed.
End EditFacts.

(** X6: an accepted [edit_user] rewrites the one row with the given
    primary key and nothing else: the key and the active flag stay, the
    name, the address and the role become the trimmed fields, and the
    password hash changes only for a password of at least six
    characters; a shorter, non-empty password is dropped with a warning
    while the rest of the edit is saved. A refused edit stores nothing.
    Either way primary keys, names and addresses stay pairwise
    distinct. *)
Theorem edit_user_keeps_keys
    (generate_password_hash : string -> string)
    (users : list Users.User) (id : Z) (form : Users.UserForm)
    (users' : list Users.User) (flashes : list (string * string))
    (response : Trainer.Response) :
  Invariants.users_ok users ->
  Users.edit_user generate_password_hash users id Trainer.POST form
  = Some (users', flashes, response) ->
  Invariants.users_ok users'
  /\ ((Users.edit_user_errors users id form <> []
       /\ users' = users
       /\ flashes = Trainer.danger (Users.edit_user_errors users id form))
      \/ (Users.edit_user_errors users id form = []
          /\ exists user user' l1 l2,
               users = l1 ++ user :: l2
               /\ users' = l1 ++ user' :: l2
               /\ Users.user_id user = id
               /\ Users.user_id user' = id
               /\ Users.is_active user' = Users.is_active user
               /\ Users.username user' = PyStr.strip (Users.uf_username form)
               /\ Users.email user' = PyStr.strip (Users.uf_email form)
               /\ Users.role user' = PyStr.strip (Users.uf_role form)
               /\ Users.role user' ∈ Users.valid_roles
               /\ (6 <= PyLen.len (Users.uf_password form) ->
                     Users.password_hash user'
                     = generate_password_hash (Users.uf_password form))
               /\ (PyLen.len (Users.uf_password form) < 6 ->
                     Users.password_hash user' = Users.password_hash user)
               /\ (Users.uf_password form <> EmptyString ->
                   PyLen.len (Users.uf_password form) < 6 ->
                     (Users.msg_password_short, "warning") ∈ flashes))).
Proof.
  intros (Hid & Hname & Hmail) Hrun. unfold Users.edit_user in Hrun.
  destruct (Users.by_id users id) as [user|] eqn:Hget; [|discriminate].
  apply by_id_Some in Hget as [Hin Huid].
  destruct (Users.edit_user_errors users id form) as [|e es] eqn:E.
  - cbv zeta in Hrun. injection Hrun as <- <- <-.
    pose proof (edit_user_errors_nil users id form E) as (Hu & He & Hr & Hcu & Hce).
    set (user' := Users.mkUser _ _ _ _ _ _).
    destruct (update_row_split users id user user' Hid Hin Huid)
      as (l1 & l2 & -> & -> & Hother).
    split.
    + unfold Invariants.users_ok. rewrite !fmap_app, !fmap_cons in *.
      split; [|split].
      * unfold user' at 1. simpl. exact Hid.
      * apply (NoDup_replace_middle _ _ (Users.username user) _ Hname).
        rewrite <- fmap_app.
        apply (key_free_elsewhere Users.username l1 l2 user id);
          [rewrite fmap_app, fmap_cons; exact Hname|exact Hother|exact Hcu].
      * apply (NoDup_replace_middle _ _ (Users.email user) _ Hmail).
        rewrite <- fmap_app.
        apply (key_free_elsewhere Users.email l1 l2 user id);
          [rewrite fmap_app, fmap_cons; exact Hmail|exact Hother|exact Hce].
    + right. split; [reflexivity|].
      exists user, user', l1, l2. unfold user'.
      cbn [Users.user_id Users.username Users.email Users.password_hash
           Users.role Users.is_active].
      assert (Users.uf_password form <> EmptyString ->
              PyStr.falsy (Users.uf_password form) = false) as Hfalsy
        by (destruct (Users.uf_password form); [congruence|reflexivity]).
      assert (PyLen.len (Users.uf_password form) <> 0%nat ->
              Users.uf_password form <> EmptyString) as Hlen0
        by (intros Hn Hp; rewrite Hp in Hn; apply Hn; reflexivity).
      assert (forall n : nat,
                match n with S (S (S (S (S (S _))))) => true | _ => false end
                = (6 <=? n)%nat) as Hleb by reflexivity.
      rewrite Hleb.
      repeat split; try assumption.
      * intros Hlen. rewrite Hfalsy by (apply Hlen0; lia).
        rewrite (proj2 (Nat.leb_le _ _) Hlen). reflexivity.
      * intros Hlen. rewrite (proj2 (Nat.leb_gt _ _) Hlen).
        rewrite andb_false_r. reflexivity.
      * intros Hp Hlen. rewrite (Hfalsy Hp).
        rewrite (proj2 (Nat.ltb_lt _ _) Hlen). apply elem_of_cons. left.
        reflexivity.
  - injection Hrun as <- <- <-. split; [repeat split; assumption|].
    left. repeat split. discriminate.
Qed.

Lemma edit_user_keeps_keys_witness :
  Invariants.users_ok
    [Users.mkUser 1 "admin" "admin@gym.test" "h1" "admin" true;
     Users.mkUser 2 "anne" "anna@gym.test" "h2" "cashier" false].
Proof.
  refine (proj1 (edit_user_keeps_keys (fun p => "hash:" +:+ p)
            [Users.mkUser 1 "admin" "admin@gym.test" "h1" "admin" true;
             Users.mkUser 2 "anna" "anna@gym.test" "h2" "trainer" false]
            2 (Users.mkUserForm " anne" "anna@gym.test" "abc" "cashier")
            _ [(Users.msg_password_short, "warning");
               ("Cập nhật người dùng 'anne' thành công.", "success")]
            (Trainer.Redirect "admin.users") _ _)).
  - repeat split; simpl; repeat constructor; rewrite ?elem_of_cons, ?elem_of_nil;
      intros H; repeat destruct H as [H|H]; congruence || lia || exact H.
  - vm_compute. reflexivity.
Defined.

Section LockFacts.
Import Trainer Users Invariants.

Lemma update_row_other users id user' :
  (forall u, u ∈ users -> user_id u <> id) -> update_row users id user' = users.
Proof.
  unfold update_row. induction users as [|u users IH]; intros Hne; [reflexivity|].
  rewrite fmap_cons. rewrite IH.
  - destruct (decide (user_id u = id)) as [Heq|_]; [|reflexivity].
    exfalso. apply (Hne u); [constructor|exact Heq].
  - intros x Hx. apply Hne. constructor. exact Hx.
Qed.

Lemma update_row_middle l1 l2 user user' id :
  user_id user = id -> (forall u, u ∈ l1 ++ l2 -> user_id u <> id) ->
  update_row (l1 ++ user :: l2) id user' = l1 ++ user' :: l2.
Proof.
  intros Hid Hne.
  pose proof (update_row_other l1 id user') as H1.
  pose proof (update_row_other l2 id user') as H2.
  unfold update_row in *. rewrite fmap_app, fmap_cons.
  rewrite H1, H2.
  - destruct (decide (user_id user = id)); [reflexivity|contradiction].
  - intros u Hu. apply Hne, elem_of_app. right. exact Hu.
  - intros u Hu. apply Hne, elem_of_app. left. exact Hu.
Qed.

Lemma by_id_middle l1 l2 user id :
  user_id user = id -> (forall u, u ∈ l1 ++ l2 -> user_id u <> id) ->
  by_id (l1 ++ user :: l2) id = Some user.
Proof.
  intros Hid Hne. unfold by_id.
  destruct (head _) as [u|] eqn:E.
  - apply head_filter_Some in E as [Hu Hu'].
    apply elem_of_app in Hu as [Hu|Hu].
    + exfalso. apply (Hne u); [apply elem_of_app; left; exact Hu|exact Hu'].
    + apply elem_of_cons in Hu as [->|Hu]; [reflexivity|].
      exfalso. apply (Hne u); [apply elem_of_app; right; exact Hu|exact Hu'].
  - exfalso. rewrite head_filter_None in E. apply (E user); [|exact Hid].
    apply elem_of_app. right. constructor.
Qed.

(** What [login] needs to sign somebody in. *)
Lemma login_Some check_password_hash users method form_username form_password user :
  (login check_password_hash users None method form_username form_password).1.1
  = Some user ->
  user ∈ users /\ is_active user = true.
Proof.
  unfold login. destruct method; [intros H; discriminate H|]. cbv zeta.
  destruct (by_username users _) as [u|] eqn:Hu; [|intros H; discriminate H].
  destruct (check_password _ _ _); [|intros H; discriminate H].
  destruct (is_active u) eqn:Ha; simpl; [|intros H; discriminate H].
  intros H. injection H as <-. split; [|exact Ha].
  unfold by_username in Hu.
  apply (head_filter_Some (fun x => username x = _)) in Hu. apply Hu.
Qed.

Lemma head_filter_is_Some {B : Type} (P : B -> Prop) `{!forall x, Decision (P x)}
    (l : list B) (x : B) :
  x ∈ l -> P x -> is_Some (head (filter P l)).
Proof.
  intros Hin HP. destruct (head (filter P l)) as [y|] eqn:E; [eexists; reflexivity|].
  exfalso. rewrite head_filter_None in E. exact (E x Hin HP).
Qed.

Lemma NoDup_fmap_filter {B K : Type} (f : B -> K) (P : B -> Prop)
    `{!forall x, Decision (P x)} (l : list B) :
  NoDup (f <$> l) -> NoDup (f <$> filter P l).
Proof.
  induction l as [|x l IH]; [intros _; constructor|].
  rewrite fmap_cons. intros [Hx Hnd]%NoDup_cons. rewrite filter_cons.
  destruct (decide (P x)); [|apply IH, Hnd].
  rewrite fmap_cons. apply NoDup_cons. split; [|apply IH, Hnd].
  intros (y & Hy & Hin)%list_elem_of_fmap. apply Hx. rewrite Hy.
  apply list_elem_of_fmap_2. apply list_elem_of_filter in Hin. apply Hin.
Qed.
End LockFacts.

(** X7: [toggle_user_active] never changes the administrator's own
    account; on any other account it flips the active flag of exactly
    that row and nothing else, so that a second request restores the
    user table. *)
Theorem toggle_user_active_twice
    (users : list Users.User) (current_user_id id : Z)
    (users1 : list Users.User) (flash1 : string * string)
    (response1 : Trainer.Response) :
  NoDup (Users.user_id <$> users) ->
  Users.toggle_user_active users current_user_id id
  = Some (users1, flash1, response1) ->
  (id = current_user_id ->
     users1 = users /\ flash1 = (Users.msg_no_self_lock, "danger"))
  /\ (id <> current_user_id ->
      (exists user l1 l2,
         users = l1 ++ user :: l2
         /\ Users.user_id user = id
         /\ users1
            = l1 ++ Users.mkUser id (Users.username user) (Users.email user)
                      (Users.password_hash user) (Users.role user)
                      (negb (Users.is_active user)) :: l2)
      /\ exists flash2,
           Users.toggle_user_active users1 current_user_id id
           = Some (users, flash2, response1)).
Proof.
  intros Hnd Hrun. unfold Users.toggle_user_active in Hrun.
  destruct (Users.by_id users id) as [user|] eqn:Hget; [|discriminate].
  apply by_id_Some in Hget as [Hin Huid].
  destruct (decide (Users.user_id user = current_user_id)) as [Hself|Hother].
  - injection Hrun as <- <- <-. split; [intros _; split; reflexivity|].
    intros Hne. exfalso. apply Hne. rewrite <- Huid. exact Hself.
  - cbv zeta in Hrun. injection Hrun as <- <- <-.
    split; [intros ->; contradiction|]. intros _.
    destruct (update_row_split users id user
                (Users.mkUser (Users.user_id user) (Users.username user)
                   (Users.email user) (Users.password_hash user)
                   (Users.role user) (negb (Users.is_active user)))
                Hnd Hin Huid) as (l1 & l2 & -> & -> & Hrest).
    split.
    + exists user, l1, l2. rewrite Huid. repeat split; reflexivity || assumption.
    + unfold Users.toggle_user_active.
      match goal with
      | |- context [Users.by_id (l1 ++ ?u :: l2) id] =>
          rewrite (by_id_middle l1 l2 u id Huid Hrest)
      end.
      cbn [Users.user_id Users.username Users.email Users.password_hash
           Users.role Users.is_active].
      destruct (decide (Users.user_id user = current_user_id));
        [contradiction|].
      cbv zeta. rewrite negb_involutive.
      match goal with
      | |- context [Users.update_row (l1 ++ ?u :: l2) id ?v] =>
          rewrite (update_row_middle l1 l2 u v id Huid Hrest)
      end.
      destruct user; simpl. eexists. reflexivity.
Qed.

Lemma toggle_user_active_twice_witness :
  exists flash2,
    Users.toggle_user_active
      [Users.mkUser 1 "admin" "admin@gym.test" "h1" "admin" true;
       Users.mkUser 2 "anna" "anna@gym.test" "h2" "trainer" false] 1 2
    = Some ([Users.mkUser 1 "admin" "admin@gym.test" "h1" "admin" true;
             Users.mkUser 2 "anna" "anna@gym.test" "h2" "trainer" true],
            flash2, Trainer.Redirect "admin.users").
Proof.
  refine (proj2 (proj2 (toggle_user_active_twice
            [Users.mkUser 1 "admin" "admin@gym.test" "h1" "admin" true;
             Users.mkUser 2 "anna" "anna@gym.test" "h2" "trainer" true]
            1 2 _ _ _ _ _) _)).
  - simpl. repeat constructor; rewrite ?elem_of_cons, ?elem_of_nil;
      intros H; repeat destruct H as [H|H]; congruence || lia || exact H.
  - vm_compute. reflexivity.
  - lia.
Defined.

(** X8: once [toggle_user_active] has locked an account, no [login]
    request signs that account in, whatever name and password are
    sent. *)
Theorem locked_user_cannot_login
    (check_password_hash : string -> string -> bool)
    (users : list Users.User) (current_user_id id : Z) (user : Users.User)
    (users1 : list Users.User) (flash : string * string)
    (response : Trainer.Response) :
  NoDup (Users.user_id <$> users) ->
  Users.by_id users id = Some user ->
  Users.is_active user = true ->
  id <> current_user_id ->
  Users.toggle_user_active users current_user_id id
  = Some (users1, flash, response) ->
  forall (method : Trainer.Method) (form_username form_password : string)
         (signed_in : Users.User),
    (Users.login check_password_hash users1 None method
       form_username form_password).1.1 = Some signed_in ->
    Users.user_id signed_in <> id.
Proof.
  intros Hnd Hget Hact Hne Hrun method fu fp u Hlogin Hu.
  apply login_Some in Hlogin as [Hin1 Hact1].
  unfold Users.toggle_user_active in Hrun. rewrite Hget in Hrun.
  apply by_id_Some in Hget as [Hin Huid].
  destruct (decide (Users.user_id user = current_user_id)) as [Hself|_];
    [apply Hne; rewrite <- Huid; exact Hself|].
  cbv zeta in Hrun. injection Hrun as <- <- <-.
  destruct (update_row_split users id user
              (Users.mkUser (Users.user_id user) (Users.username user)
                 (Users.email user) (Users.password_hash user)
                 (Users.role user) (negb (Users.is_active user)))
              Hnd Hin Huid) as (l1 & l2 & -> & Hupd & Hrest).
  rewrite Hupd in Hin1.
  apply elem_of_app in Hin1 as [Hin1|Hin1].
  - apply (Hrest u); [apply elem_of_app; left; exact Hin1|exact Hu].
  - apply elem_of_cons in Hin1 as [->|Hin1].
    + simpl in Hact1. rewrite Hact in Hact1. discriminate Hact1.
    + apply (Hrest u); [apply elem_of_app; right; exact Hin1|exact Hu].
Qed.

Lemma locked_user_cannot_login_witness :
  (Users.user_id (Users.mkUser 1 "admin" "admin@gym.test" "h1" "admin" true) =? 2)%Z
  = false.
Proof.
  apply Z.eqb_neq.
  refine (locked_user_cannot_login String.eqb
            [Users.mkUser 1 "admin" "admin@gym.test" "h1" "admin" true;
             Users.mkUser 2 "anna" "anna@gym.test" "h2" "trainer" true]
            1 2 (Users.mkUser 2 "anna" "anna@gym.test" "h2" "trainer" true)
            [Users.mkUser 1 "admin" "admin@gym.test" "h1" "admin" true;
             Users.mkUser 2 "anna" "anna@gym.test" "h2" "trainer" false]
            _ _ _ _ _ _ _ Trainer.POST " admin" "h1" _ _).
  - simpl. repeat constructor; rewrite ?elem_of_cons, ?elem_of_nil;
      intros H; repeat destruct H as [H|H]; congruence || lia || exact H.
  - vm_compute. reflexivity.
  - reflexivity.
  - lia.
  - vm_compute. reflexivity.
  - vm_compute. reflexivity.
Defined.

(** X9: [delete_user] removes at most the row with the given primary
    key, and only when it is not the administrator's own account and no
    workout plan names it as trainer; so the keys of the table stay
    distinct, every plan keeps a trainer in the table, and the
    administrator's own row is never removed. *)
Theorem delete_user_guards
    (users : list Users.User) (plans : list Trainer.WorkoutPlan)
    (current_user_id id : Z)
    (users' : list Users.User) (flash : string * string)
    (response : Trainer.Response) :
  Invariants.users_ok users ->
  Invariants.trainers_resolve users plans ->
  Users.delete_user users plans current_user_id id
  = Some (users', flash, response) ->
  Invariants.users_ok users'
  /\ Invariants.trainers_resolve users' plans
  /\ (forall u, u ∈ users -> Users.user_id u = current_user_id -> u ∈ users')
  /\ (users' = users
      \/ (id <> current_user_id
          /\ Forall (fun p => Trainer.wp_trainer_id p <> id) plans
          /\ forall u, u ∈ users' <-> u ∈ users /\ Users.user_id u <> id)).
Proof.
  intros (Hid & Hname & Hmail) Hres Hrun. unfold Users.delete_user in Hrun.
  destruct (Users.by_id users id) as [user|] eqn:Hget; [|discriminate].
  apply by_id_Some in Hget as [Hin Huid].
  destruct (decide (Users.user_id user = current_user_id)) as [Hself|Hother].
  { injection Hrun as <- <- <-.
    repeat split; try assumption; [intros u Hu _; exact Hu|left; reflexivity]. }
  destruct (filter _ plans) as [|p ps] eqn:Hplans.
  2:{ injection Hrun as <- <- <-.
      repeat split; try assumption; [intros u Hu _; exact Hu|left; reflexivity]. }
  injection Hrun as <- <- <-.
  assert (Forall (fun p => Trainer.wp_trainer_id p <> id) plans) as Hfree.
  { apply Forall_forall. intros p Hp Heq.
    assert (p ∈ filter (fun p => Trainer.wp_trainer_id p = Users.user_id user) plans)
      as Hf by (apply list_elem_of_filter; split; [congruence|exact Hp]).
    rewrite Hplans in Hf. inversion Hf. }
  assert (forall u, u ∈ Users.delete_row users id
                    <-> u ∈ users /\ Users.user_id u <> id) as Hrows.
  { intros u. unfold Users.delete_row. rewrite list_elem_of_filter. tauto. }
  split; [|split; [|split]].
  - unfold Invariants.users_ok, Users.delete_row.
    repeat split; apply NoDup_fmap_filter; assumption.
  - unfold Invariants.trainers_resolve in *.
    rewrite Forall_forall in Hres, Hfree. apply Forall_forall. intros p Hp.
    destruct (Hres p Hp) as [t Ht]. apply by_id_Some in Ht as [Ht Htid].
    unfold Users.by_id.
    apply (head_filter_is_Some (fun u => Users.user_id u = _) _ t); [|exact Htid].
    apply Hrows. split; [exact Ht|]. rewrite Htid. apply (Hfree p Hp).
  - intros u Hu Hcur. apply Hrows. split; [exact Hu|]. congruence.
  - right. split; [congruence|]. split; assumption.
Qed.

Lemma delete_user_guards_witness :
  Invariants.users_ok [Users.mkUser 1 "admin" "admin@gym.test" "h1" "admin" true].
Proof.
  refine (proj1 (delete_user_guards
            [Users.mkUser 1 "admin" "admin@gym.test" "h1" "admin" true;
             Users.mkUser 2 "anna" "anna@gym.test" "h2" "trainer" true]
            [Trainer.mkWorkoutPlan 7 1 "" []] 1 2 _
            ("Đã xóa người dùng 'anna'.", "success")
            (Trainer.Redirect "admin.users") _ _ _)).
  - repeat split; simpl; repeat constructor; rewrite ?elem_of_cons, ?elem_of_nil;
      intros H; repeat destruct H as [H|H]; congruence || lia || exact H.
  - repeat constructor. vm_compute. eexists. reflexivity.
  - vm_compute. reflexivity.
Defined.

Section DeskFacts.
Import Trainer Desk Invariants.

Lemma get_by_field_Some {A : Type} (table : gmap Z A) (field : string) (i : Z) (a : A) :
  get_by_field table field = Ok (Some (i, a)) ->
  PyStr.int field = Ok i /\ table !! i = Some a.
Proof.
  unfold get_by_field. destruct (PyStr.isdigit field); [|discriminate].
  destruct (PyStr.int field) as [j|e]; [|discriminate]. simpl.
  destruct (table !! j) as [b|] eqn:E; [|discriminate]. simpl.
  intros H. injection H as <- <-. split; [reflexivity|exact E].
Qed.

(** The two ways a POST to [payment] can return. *)
Lemma payment_post_inv t today now form_member_id form_package_id t' flashes response :
  payment t today now POST form_member_id form_package_id = Ok (t', flashes, response) ->
  (t' = t /\ response = payment_page
   /\ exists message messages,
        flashes = danger (message :: messages)
        /\ Forall (fun s => s = msg_member_missing \/ s = msg_package_missing)
             (message :: messages))
  \/ (exists mid m pid p m',
        PyStr.int (PyStr.strip form_member_id) = Ok mid
        /\ PyStr.int (PyStr.strip form_package_id) = Ok pid
        /\ members t !! mid = Some m
        /\ packages t !! pid = Some p
        /\ Cashier.payment today p m = Ok m'
        /\ t' = mkTables (<[mid := m']> (members t)) (packages t)
                  (invoices t ++ [mkInvoiceRow mid pid (price p) now])
        /\ flashes = [(msg_paid, "success")]
        /\ response = Redirect "cashier.payment").
Proof.
  unfold payment. cbv zeta.
  destruct (get_by_field (members t) _) as [member|e] eqn:Hm; [|discriminate].
  destruct (get_by_field (packages t) _) as [package|e] eqn:Hp; [|discriminate].
  cbn [rbind].
  destruct member as [[mid m]|], package as [[pid p]|]; cbn [app].
  - destruct (Cashier.payment today p m) as [m'|e] eqn:Hpay; [|discriminate].
    cbn [rbind]. intros H. injection H as <- <- <-. right.
    apply get_by_field_Some in Hm as [Hm1 Hm2].
    apply get_by_field_Some in Hp as [Hp1 Hp2].
    exists mid, m, pid, p, m'. repeat split; assumption.
  - intros H. injection H as <- <- <-. left. repeat split.
    exists msg_package_missing, []. split; [reflexivity|].
    constructor; [right; reflexivity|constructor].
  - intros H. injection H as <- <- <-. left. repeat split.
    exists msg_member_missing, []. split; [reflexivity|].
    constructor; [left; reflexivity|constructor].
  - intros H. injection H as <- <- <-. left. repeat split.
    exists msg_member_missing, [msg_package_missing]. split; [reflexivity|].
    constructor; [left; reflexivity|].
    constructor; [right; reflexivity|constructor].
Qed.

Lemma today_le_base_date today au :
  date_leb today (Cashier.base_date today au) = true.
Proof.
  unfold Cashier.base_date. destruct au as [a|]; [|apply date_leb_refl].
  unfold date_geb. destruct (date_leb today a) eqn:E; [exact E|apply date_leb_refl].
Qed.

(** A committed payment leaves the member active on the day of payment. *)
Lemma payment_member_active today p m m' :
  valid_date today = true ->
  (forall au, active_until m = Some au -> valid_date au = true) ->
  (1 <= duration_months p)%Z ->
  Cashier.payment today p m = Ok m' ->
  is_active_on today m' = true.
Proof.
  intros Ht Hau Hn. unfold Cashier.payment, Cashier.new_active_until.
  destruct (Cashier._add_months _ _) as [d|e] eqn:E; [|discriminate].
  cbn [rbind]. intros H. injection H as <-.
  unfold is_active_on, date_geb. cbn [active_until].
  apply _add_months_later in E as [_ Hlt];
    [|apply base_date_valid; assumption|exact Hn].
  apply (date_leb_trans _ (Cashier.base_date today (active_until m)));
    [apply today_le_base_date|apply date_ltb_leb, Hlt].
Qed.

(** One request keeps the foreign keys of the invoices resolvable. *)
Lemma desk_step_resolve t t' :
  invoices_resolve t -> desk_step t t' -> invoices_resolve t'.
Proof.
  intros Hres Hstep. destruct Hstep as [t today now method fm fp t' fl r Hrun
                                       |t id t' fl r Hrun].
  - destruct method; [injection Hrun as <- _ _; exact Hres|].
    apply payment_post_inv in Hrun
      as [(-> & _)|(mid & m & pid & p & m' & _ & _ & Hm & Hp & _ & -> & _)];
      [exact Hres|].
    unfold invoices_resolve in *. cbn [members packages invoices].
    apply Forall_app. split.
    + eapply Forall_impl; [exact Hres|]. intros inv [H1 H2]. split; [|exact H2].
      rewrite lookup_insert_is_Some. destruct (decide (mid = inv_member_id inv));
        [left; assumption|right; split; assumption].
    + repeat constructor; cbn [inv_member_id inv_package_id].
      * rewrite lookup_insert_eq. eexists. reflexivity.
      * rewrite Hp. eexists. reflexivity.
  - unfold delete_package in Hrun.
    destruct (packages t !! id) as [package|] eqn:Hp; [|discriminate].
    cbv zeta in Hrun.
    destruct (filter _ (invoices t)) as [|inv0 invs] eqn:Hf; simpl in Hrun.
    2:{ injection Hrun as <- _ _. exact Hres. }
    injection Hrun as <- _ _.
    unfold invoices_resolve in *. cbn [members packages invoices].
    rewrite Forall_forall in Hres. apply Forall_forall. intros inv Hin.
    destruct (Hres inv Hin) as [H1 H2]. split; [exact H1|].
    rewrite lookup_delete_is_Some. split; [|exact H2].
    intros Heq.
    assert (inv ∈ filter (fun inv => inv_package_id inv = id) (invoices t)) as Hin'
      by (apply list_elem_of_filter; split; [congruence|exact Hin]).
    rewrite Hf in Hin'. inversion Hin'.
Qed.
End DeskFacts.



(** X11: whatever sequence of payments and package deletions is
    served, every invoice keeps naming a stored member and a stored
    package: a payment only bills rows it has found, and
    [delete_package] refuses a package that an invoice names. *)
Theorem invoices_always_resolve (t t' : Desk.Tables) :
  Invariants.invoices_resolve t ->
  rtc Invariants.desk_step t t' ->
  Invariants.invoices_resolve t'.
Proof.
  intros Hres Hsteps. induction Hsteps as [t|t t1 t2 Hstep _ IH]; [exact Hres|].
  apply IH. exact (desk_step_resolve t t1 Hres Hstep).
Qed.

Lemma invoices_always_resolve_witness :
  Invariants.invoices_resolve
    (Desk.mkTables {[ 4%Z := mkMember 4 (Some (mkdate 2025 2 28)) ]}
       (delete 8%Z {[ 8%Z := mkPackage "Month" 1 200000%float None;
                      9%Z := mkPackage "Quarter" 3 450000%float None ]})
       [Desk.mkInvoiceRow 4 9 450000%float (mkdatetime (mkdate 2024 11 30) 0)]).
Proof.
  refine (invoices_always_resolve
            (Desk.mkTables {[ 4%Z := mkMember 4 None ]}
               {[ 8%Z := mkPackage "Month" 1 200000%float None;
                  9%Z := mkPackage "Quarter" 3 450000%float None ]} [])
            _ _ _).
  - constructor.
  - eapply rtc_l.
    + eapply (Invariants.step_payment _ (mkdate 2024 11 30)
                (mkdatetime (mkdate 2024 11 30) 0) Trainer.POST "4" "9").
      vm_compute. reflexivity.
    + eapply rtc_l; [|apply rtc_refl].
      eapply (Invariants.step_delete_package _ 8). vm_compute. reflexivity.
Defined.

(** X12: after a committed payment the paying member counts as active
    on the day of payment, and the number [active_members] reports for
    that day grows by one exactly when the member was not active
    before; stored expiry dates are calendar dates and stored packages
    last at least one month, as [create_package] ensures. *)
Theorem payment_activates_member
    (t : Desk.Tables) (today : date) (now : datetime)
    (form_member_id form_package_id : string)
    (t' : Desk.Tables) (flashes : list (string * string)) :
  valid_date today = true ->
  (forall k m au, Desk.members t !! k = Some m -> active_until m = Some au ->
     valid_date au = true) ->
  (forall k p, Desk.packages t !! k = Some p -> (1 <= duration_months p)%Z) ->
  Desk.payment t today now Trainer.POST form_member_id form_package_id
  = Ok (t', flashes, Trainer.Redirect "cashier.payment") ->
  exists mid m m',
    PyStr.int (PyStr.strip form_member_id) = Ok mid
    /\ Desk.members t !! mid = Some m
    /\ Desk.members t' !! mid = Some m'
    /\ Desk.is_active_on today m' = true
    /\ Desk.active_members (Desk.members t') today
       = (Desk.active_members (Desk.members t) today
          + (if Desk.is_active_on today m then 0 else 1))%nat.
Proof.
  intros Htoday Hdates Hpackages Hrun.
  apply payment_post_inv in Hrun
    as [(_ & Hpage & _)
       |(mid & m & pid & p & m' & Hi & _ & Hm & Hp & Hpay & -> & _)];
    [discriminate Hpage|].
  assert (Desk.is_active_on today m' = true) as Hactive.
  { apply (payment_member_active today p m m'); [exact Htoday| | |exact Hpay].
    - intros au. apply (Hdates mid m au Hm).
    - apply (Hpackages pid p Hp). }
  exists mid, m, m'. cbn [Desk.members].
  split; [exact Hi|]. split; [exact Hm|].
  split; [apply lookup_insert_eq|]. split; [exact Hactive|].
  unfold Desk.active_members.
  rewrite map_filter_insert_True by exact Hactive.
  rewrite map_size_insert.
  destruct (Desk.is_active_on today m) eqn:Hbefore.
  - rewrite (map_lookup_filter_Some_2 _ _ mid m Hm Hbefore). simpl. lia.
  - rewrite (map_lookup_filter_None_2 _ _ mid).
    + lia.
    + right. intros x Hx. rewrite Hm in Hx. injection Hx as <-. simpl.
      rewrite Hbefore. discriminate.
Qed.

Lemma payment_activates_member_witness :
  exists mid m m',
    PyStr.int (PyStr.strip "4") = Ok mid
    /\ ({[ 4%Z := mkMember 4 (Some (mkdate 2024 1 31)) ]} : gmap Z Member) !! mid
       = Some m
    /\ ({[ 4%Z := mkMember 4 (Some (mkdate 2025 2 28)) ]} : gmap Z Member) !! mid
       = Some m'
    /\ Desk.is_active_on (mkdate 2024 11 30) m' = true
    /\ Desk.active_members {[ 4%Z := mkMember 4 (Some (mkdate 2025 2 28)) ]}
         (mkdate 2024 11 30)
       = (Desk.active_members {[ 4%Z := mkMember 4 (Some (mkdate 2024 1 31)) ]}
            (mkdate 2024 11 30)
          + (if Desk.is_active_on (mkdate 2024 11 30) m then 0 else 1))%nat.
Proof.
  refine (payment_activates_member
            (Desk.mkTables {[ 4%Z := mkMember 4 (Some (mkdate 2024 1 31)) ]}
               {[ 9%Z := mkPackage "Quarter" 3 450000%float None ]} [])
            (mkdate 2024 11 30) (mkdatetime (mkdate 2024 11 30) 0) "4" "9"
            (Desk.mkTables {[ 4%Z := mkMember 4 (Some (mkdate 2025 2 28)) ]}
               {[ 9%Z := mkPackage "Quarter" 3 450000%float None ]}
               [Desk.mkInvoiceRow 4 9 450000%float
                  (mkdatetime (mkdate 2024 11 30) 0)])
            [(Desk.msg_paid, "success")] _ _ _ _).
  - reflexivity.
  - intros k m au Hk.
    change (({[ 4%Z := mkMember 4 (Some (mkdate 2024 1 31)) ]} : gmap Z Member) !! k
            = Some m) in Hk.
    rewrite lookup_singleton_Some in Hk. destruct Hk as [<- <-]. cbn [active_until].
    intros H. injection H as <-. reflexivity.
  - intros k p Hk.
    change (({[ 9%Z := mkPackage "Quarter" 3 450000%float None ]} : gmap Z Package) !! k
            = Some p) in Hk.
    rewrite lookup_singleton_Some in Hk. destruct Hk as [<- <-]. cbn [duration_months]. lia.
  - vm_compute. reflexivity.
Defined.

Section PlanTableFacts.
Import Trainer PlanSpec Invariants.

(** [str] and [int] agree on the numbers [update_settings] lets through. *)
Lemma int_pretty_cap (n : Z) : (1 <= n <= 7)%Z -> PyStr.int (pretty n) = Ok n.
Proof.
  intros Hn.
  destruct n as [|p|p]; [lia| |lia].
  destruct p as [[[p|p|]|[p|p|]|]|[[p|p|]|[p|p|]|]|]; try lia; vm_compute; reflexivity.
Qed.

(** What [update_settings] does to the table. *)
Lemma update_settings_inv table raw table' flash response :
  Settings.update_settings table raw = (table', flash, response) ->
  (exists n, Admin.form_get_int raw = Some n /\ (1 <= n <= 7)%Z
             /\ table' = <["max_training_days" := pretty n]> table
             /\ flash = (Settings.msg_settings_saved, "success"))
  \/ (table' = table /\ flash = (Settings.msg_cap_range, "danger")
      /\ forall n, Admin.form_get_int raw = Some n -> (n < 1 \/ 7 < n)%Z).
Proof.
  unfold Settings.update_settings. cbv zeta.
  destruct (Admin.form_get_int raw) as [n|].
  - destruct ((n <? 1) || (n >? 7))%Z eqn:E; intros H; injection H as <- <- <-.
    + right. repeat split. intros k Hk. injection Hk as <-.
      apply orb_true_iff in E as [E|E]; [left|right]; lia.
    + left. exists n. apply orb_false_iff in E as [E1 E2].
      repeat split; lia.
  - intros H. injection H as <- <- <-. right. repeat split. intros n Hn.
    discriminate Hn.
Qed.

Lemma row_detail_resolves db row d :
  row_detail db row = Some d -> is_Some (exercises db !! wd_exercise_id d).
Proof.
  destruct row as [[[e s] r] sd]. unfold row_detail.
  destruct (row_valid db _); [|discriminate].
  destruct (resolve db e) as [i|] eqn:Hr; [|discriminate].
  destruct (set_count s) as [z|]; [|discriminate].
  intros H. injection H as <-. cbn [wd_exercise_id].
  unfold resolve in Hr. destruct (PyStr.isdigit e); [|discriminate].
  destruct (PyStr.int e) as [j|]; [|discriminate].
  destruct (exercises db !! j) eqn:Hj; [|discriminate].
  injection Hr as <-. rewrite Hj. eexists. reflexivity.
Qed.

Lemma all_details_snoc db plan :
  Exercises.all_details
    (mkDB (members db) (exercises db) (system_config db) (workout_plans db ++ [plan]))
  = Exercises.all_details db ++ workout_details plan.
Proof.
  unfold Exercises.all_details. cbn [workout_plans].
  rewrite fmap_app, concat_app. simpl. rewrite app_nil_r. reflexivity.
Qed.

(** What a request to [create_plan] can do to the tables. *)
Lemma create_plan_tables db current_user method member_id form db' flashes response :
  create_plan db current_user method member_id form = Ok (db', flashes, response) ->
  db' = db
  \/ (method = POST /\ is_Some (members db !! member_id)
      /\ flashes = [(msg_plan_created, "success")]
      /\ omap (row_detail db) (rows_of form) <> []
      /\ db' = mkDB (members db) (exercises db) (system_config db)
                 (workout_plans db
                  ++ [mkWorkoutPlan member_id current_user (PyStr.strip (notes form))
                        (omap (row_detail db) (rows_of form))])).
Proof.
  intros Hrun.
  destruct (members db !! member_id) as [m|] eqn:Hm.
  - destruct method.
    + unfold create_plan in Hrun. rewrite Hm in Hrun.
      injection Hrun as <- _ _. left. reflexivity.
    + rewrite create_plan_post in Hrun by (rewrite Hm; eexists; reflexivity).
      destruct (violations db form);
        [destruct (omap (row_detail db) (rows_of form)) eqn:Ed|];
        injection Hrun as <- <- <-; [left; reflexivity| |left; reflexivity].
      right. split; [reflexivity|]. split; [eexists; reflexivity|].
      split; [reflexivity|]. split; [discriminate|].
      unfold with_plan. rewrite Ed. reflexivity.
  - unfold create_plan in Hrun. rewrite Hm in Hrun.
    injection Hrun as <- _ _. left. reflexivity.
Qed.

Lemma plan_step_details db db' :
  details_resolve db -> plan_step db db' -> details_resolve db'.
Proof.
  intros Hres Hstep.
  destruct Hstep as [db cu method mid form db' fl r Hrun
                    |db id db' fl r Hrun
                    |db raw table' fl r Hrun].
  - apply create_plan_tables in Hrun as [->|(_ & _ & _ & _ & ->)]; [exact Hres|].
    unfold details_resolve in *. rewrite all_details_snoc.
    cbn [exercises workout_details]. apply Forall_app. split; [exact Hres|].
    apply Forall_forall. intros d Hd.
    apply list_elem_of_omap in Hd as (row & _ & Hrow).
    exact (row_detail_resolves db row d Hrow).
  - unfold Exercises.delete_exercise in Hrun.
    destruct (exercises db !! id) as [exercise|] eqn:He; [|discriminate].
    cbv zeta in Hrun.
    destruct (filter _ (Exercises.all_details db)) as [|d0 ds] eqn:Hf; simpl in Hrun.
    2:{ injection Hrun as <- _ _. exact Hres. }
    injection Hrun as <- _ _.
    unfold details_resolve in *.
    change (Exercises.all_details (mkDB (members db) (delete id (exercises db))
                                     (system_config db) (workout_plans db)))
      with (Exercises.all_details db).
    cbn [exercises].
    rewrite Forall_forall in Hres. apply Forall_forall. intros d Hd.
    rewrite lookup_delete_is_Some. split; [|exact (Hres d Hd)].
    intros Heq.
    assert (d ∈ filter (fun d => wd_exercise_id d = id) (Exercises.all_details db))
      as Hin by (apply list_elem_of_filter; split; [congruence|exact Hd]).
    rewrite Hf in Hin. inversion Hin.
  - exact Hres.
Qed.

Lemma plan_step_cap db db' :
  cap_in_range db -> plan_step db db' -> cap_in_range db'.
Proof.
  intros Hcap Hstep.
  destruct Hstep as [db cu method mid form db' fl r Hrun
                    |db id db' fl r Hrun
                    |db raw table' fl r Hrun].
  - apply create_plan_tables in Hrun as [->|(_ & _ & _ & _ & ->)]; exact Hcap.
  - unfold Exercises.delete_exercise in Hrun.
    destruct (exercises db !! id) as [exercise|]; [|discriminate].
    cbv zeta in Hrun. destruct (0 <? _); injection Hrun as <- _ _; exact Hcap.
  - apply update_settings_inv in Hrun as [(n & _ & Hn & -> & _)|(-> & _)];
      [|exact Hcap].
    intros value. cbn [system_config]. rewrite lookup_insert_eq.
    intros H. injection H as <-. exists n. split; [exact Hn|reflexivity].
Qed.
End PlanTableFacts.



(** X14: whatever sequence of plan submissions, exercise deletions and
    settings updates is served, every stored workout detail keeps
    naming a stored exercise: [create_plan] stores details only for
    exercises it has found, and [delete_exercise] refuses an exercise
    that a detail names. *)
Theorem details_always_resolve (db db' : Trainer.DB) :
  Invariants.details_resolve db ->
  rtc Invariants.plan_step db db' ->
  Invariants.details_resolve db'.
Proof.
  intros Hres Hsteps. induction Hsteps as [db|db db1 db2 Hstep _ IH]; [exact Hres|].
  apply IH. exact (plan_step_details db db1 Hres Hstep).
Qed.

Lemma details_always_resolve_witness :
  Invariants.details_resolve
    (Trainer.mkDB {[ 1%Z := mkMember 1 None ]}
       (delete 6%Z {[ 5%Z := Trainer.mkExercise "Squat";
                      6%Z := Trainer.mkExercise "Plank" ]})
       {[ "max_training_days" := "6" ]}
       [Trainer.mkWorkoutPlan 1 9 "week" [Trainer.mkWorkoutDetail 5 3 "10" "monday"]]).
Proof.
  refine (details_always_resolve
            (Trainer.mkDB {[ 1%Z := mkMember 1 None ]}
               {[ 5%Z := Trainer.mkExercise "Squat";
                  6%Z := Trainer.mkExercise "Plank" ]}
               {[ "max_training_days" := "6" ]} [])
            _ _ _).
  - constructor.
  - eapply rtc_l.
    + eapply (Invariants.step_create_plan _ 9 Trainer.POST 1
                (Trainer.mkPlanForm " week" ["5"] ["3"] ["10 "] ["monday"])).
      vm_compute. reflexivity.
    + eapply rtc_l; [|apply rtc_refl].
      eapply (Invariants.step_delete_exercise _ 6). vm_compute. reflexivity.
Defined.

(** X15: when the stored cap, if any, is the decimal text of a number
    from 1 to 7, it stays so under every sequence of plan submissions,
    exercise deletions and settings updates, and the cap that
    [create_plan] then works with is a number from 1 to 7. *)
Theorem cap_always_in_range (db db' : Trainer.DB) :
  Invariants.cap_in_range db ->
  rtc Invariants.plan_step db db' ->
  Invariants.cap_in_range db'
  /\ exists cap, Trainer.max_training_days (Trainer.system_config db') = Ok cap
                 /\ (1 <= cap <= 7)%Z.
Proof.
  intros Hcap Hsteps.
  assert (Invariants.cap_in_range db') as Hcap'.
  { induction Hsteps as [db|db db1 db2 Hstep _ IH]; [exact Hcap|].
    apply IH. exact (plan_step_cap db db1 Hcap Hstep). }
  split; [exact Hcap'|].
  rewrite max_training_days_ok.
  destruct (Trainer.system_config db' !! "max_training_days") as [value|] eqn:Hv.
  - destruct (Hcap' value Hv) as (n & Hn & ->).
    rewrite (int_pretty_cap n Hn). exists n. split; [reflexivity|exact Hn].
  - exists 6%Z. split; [reflexivity|lia].
Qed.

Lemma cap_always_in_range_witness :
  exists cap,
    Trainer.max_training_days (<["max_training_days" := "3"]> ∅) = Ok cap
    /\ (1 <= cap <= 7)%Z.
Proof.
  refine (proj2 (cap_always_in_range
                   (Trainer.mkDB ∅ ∅ ∅ [])
                   (Trainer.mkDB ∅ ∅ (<["max_training_days" := "3"]> ∅) []) _ _)).
  - intros value Hv. cbn [Trainer.system_config] in Hv.
    rewrite lookup_empty in Hv. discriminate Hv.
  - eapply rtc_l; [|apply rtc_refl].
    eapply (Invariants.step_update_settings (Trainer.mkDB ∅ ∅ ∅ []) (Some "3")).
    vm_compute. reflexivity.
Defined.

Section YearFacts.
Import Admin RevenueSpec.
Context {A : Type} (zero : A) (add : A -> A -> A).
Context `{!Assoc (=) add, !Comm (=) add, !LeftId (=) zero add}.

Lemma month_total_cons y m (inv : Invoice A) (l : list (Invoice A)) :
  month_total zero add y m (inv :: l)
  = if decide (in_month y m inv)
    then add (amount inv) (month_total zero add y m l)
    else month_total zero add y m l.
Proof.
  unfold month_total. rewrite filter_cons.
  destruct (decide (in_month y m inv)); reflexivity.
Qed.

(** Adding [a] to one bucket adds [a] to the sum of the buckets. *)
Lemma sum_bump {I : Type} `{EqDecision I} (f : I -> A) (k : I) (a : A) (l : list I) :
  NoDup l -> k ∈ l ->
  foldr add zero ((fun i => if decide (i = k) then add a (f i) else f i) <$> l)
  = add a (foldr add zero (f <$> l)).
Proof.
  induction l as [|i l IH]; intros Hnd Hk; [inversion Hk|].
  apply NoDup_cons in Hnd as [Hi Hnd]. rewrite !fmap_cons. simpl.
  destruct (decide (i = k)) as [->|Hne].
  - rewrite <- (assoc add). do 3 f_equal.
    apply list_fmap_ext. intros j x Hx.
    destruct (decide (x = k)) as [->|_]; [|reflexivity].
    exfalso. apply Hi. eapply list_elem_of_lookup_2. exact Hx.
  - apply elem_of_cons in Hk as [->|Hk]; [contradiction|].
    rewrite (IH Hnd Hk). rewrite !(assoc add), (comm add (f i) a). reflexivity.
Qed.

Lemma sum_zeros (n : nat) : foldr add zero (replicate n zero) = zero.
Proof. induction n as [|n IH]; simpl; [reflexivity|]. rewrite IH. apply (left_id zero add). Qed.

(** The twelve monthly totals of a year add up to the total of the year. *)
Lemma months_sum y (l : list (Invoice A)) :
  Forall (fun inv => valid_date (dt_date (created_at inv)) = true) l ->
  foldr add zero ((fun i : nat => month_total zero add y (Z.of_nat i + 1) l) <$> seq 0 12)
  = foldr add zero (amount <$> filter (fun inv => invoice_year inv = y) l).
Proof.
  induction 1 as [|inv l Hv _ IH].
  - change (foldr add zero (replicate 12 zero) = zero). apply sum_zeros.
  - rewrite filter_cons. destruct (decide (invoice_year inv = y)) as [Hy|Hy].
    + rewrite fmap_cons. simpl foldr at 2. rewrite <- IH.
      pose proof (valid_date_fields _ Hv) as (_ & Hm & _).
      rewrite <- (sum_bump (fun i : nat => month_total zero add y (Z.of_nat i + 1) l)
                    (Z.to_nat (invoice_month inv - 1)) (amount inv) (seq 0 12)).
      * f_equal. apply list_fmap_ext. intros j i _.
        rewrite month_total_cons. unfold in_month.
        destruct (decide (i = Z.to_nat (invoice_month inv - 1))) as [->|Hne].
        -- rewrite decide_True; [reflexivity|]. split; [|exact Hy].
           unfold invoice_month in *. lia.
        -- rewrite decide_False; [reflexivity|]. intros [Hk _]. apply Hne.
           unfold invoice_month in *. lia.
      * apply NoDup_seq.
      * apply elem_of_seq. unfold invoice_month. lia.
    + rewrite <- IH. f_equal. apply list_fmap_ext. intros j i _.
      rewrite month_total_cons. rewrite decide_False; [reflexivity|].
      intros [_ Hk]. contradiction.
Qed.
End YearFacts.



Section DashboardFacts.
Import Trainer PlanSpec Dashboard.

(** The success message of [create_plan] is flashed only with the plan
    stored. *)
Lemma create_plan_stored db current_user method member_id form db' response :
  create_plan db current_user method member_id form
  = Ok (db', [(msg_plan_created, "success")], response) ->
  is_Some (members db !! member_id)
  /\ omap (row_detail db) (rows_of form) <> []
  /\ db' = mkDB (members db) (exercises db) (system_config db)
             (workout_plans db
              ++ [mkWorkoutPlan member_id current_user (PyStr.strip (notes form))
                    (omap (row_detail db) (rows_of form))]).
Proof.
  intros Hrun.
  destruct (members db !! member_id) as [m|] eqn:Hm.
  - destruct method.
    + unfold create_plan in Hrun. rewrite Hm in Hrun. discriminate Hrun.
    + rewrite create_plan_post in Hrun by (rewrite Hm; eexists; reflexivity).
      destruct (violations db form);
        [destruct (omap (row_detail db) (rows_of form)) eqn:Ed|];
        [discriminate Hrun| |discriminate Hrun].
      injection Hrun as <- <-. split; [eexists; reflexivity|].
      split; [discriminate|]. unfold with_plan. rewrite Ed. reflexivity.
  - unfold create_plan in Hrun. rewrite Hm in Hrun. discriminate Hrun.
Qed.

Lemma assigned_iff (plans : list WorkoutPlan) (current_user_id id : Z) :
  id ∈ (list_to_set (wp_member_id
                       <$> filter (fun p => wp_trainer_id p = current_user_id) plans)
        : gset Z)
  <-> (0 < length (filter (fun p => wp_member_id p = id
                                    /\ wp_trainer_id p = current_user_id) plans))%nat.
Proof.
  rewrite elem_of_list_to_set, list_elem_of_fmap. split.
  - intros (p & -> & Hp). apply list_elem_of_filter in Hp as [Ht Hp].
    assert (p ∈ filter (fun q => wp_member_id q = wp_member_id p
                                 /\ wp_trainer_id q = current_user_id) plans) as Hin
      by (apply list_elem_of_filter; auto).
    destruct (filter _ plans); [inversion Hin|simpl; lia].
  - intros Hlen.
    destruct (filter (fun p => wp_member_id p = id
                               /\ wp_trainer_id p = current_user_id) plans)
      as [|p ps] eqn:E; [simpl in Hlen; lia|].
    assert (p ∈ filter (fun p => wp_member_id p = id
                                 /\ wp_trainer_id p = current_user_id) plans) as Hin
      by (rewrite E; constructor).
    apply list_elem_of_filter in Hin as [[Hid Ht] Hin].
    exists p. split; [symmetry; exact Hid|].
    apply list_elem_of_filter. auto.
Qed.
End DashboardFacts.

(** X17: the trainer's [dashboard] lists every member once, in the
    order of the member query; the [has_plan] flag, read from the set of
    distinct member keys, says exactly that the separately counted
    [plan_count] is positive; and plans of other trainers change
    nothing. *)
Theorem dashboard_consistent
    (all_members : list Member) (plans : list Trainer.WorkoutPlan)
    (current_user_id : Z) :
  Dashboard.entry_member <$> Dashboard.dashboard all_members plans current_user_id
  = all_members
  /\ Forall (fun e => Dashboard.has_plan e = true <-> (0 < Dashboard.plan_count e)%nat)
       (Dashboard.dashboard all_members plans current_user_id)
  /\ Dashboard.dashboard all_members
       (filter (fun p => Trainer.wp_trainer_id p = current_user_id) plans)
       current_user_id
     = Dashboard.dashboard all_members plans current_user_id.
Proof.
  unfold Dashboard.dashboard. cbv zeta. split; [|split].
  - rewrite <- list_fmap_compose. apply list_fmap_id.
  - apply Forall_fmap, Forall_forall. intros member _.
    cbn [Dashboard.has_plan Dashboard.plan_count compose].
    rewrite bool_decide_eq_true. apply assigned_iff.
  - apply list_fmap_ext. intros i member _.
    rewrite !list_filter_filter. f_equal.
    + apply bool_decide_ext. rewrite !elem_of_list_to_set.
      rewrite (list_filter_iff
                 (fun p => Trainer.wp_trainer_id p = current_user_id
                           /\ Trainer.wp_trainer_id p = current_user_id)
                 (fun p => Trainer.wp_trainer_id p = current_user_id));
        [reflexivity|tauto].
    + rewrite (list_filter_iff
                 (fun p => (Trainer.wp_member_id p = member_id member
                            /\ Trainer.wp_trainer_id p = current_user_id)
                           /\ Trainer.wp_trainer_id p = current_user_id)
                 (fun p => Trainer.wp_member_id p = member_id member
                           /\ Trainer.wp_trainer_id p = current_user_id));
        [reflexivity|tauto].
Qed.

(** X18: once [create_plan] has flashed its success message, the
    dashboard of the submitting trainer shows the member of the plan
    with [has_plan] set and a [plan_count] one higher, and every other
    row as before. *)
Theorem create_plan_shows_on_dashboard
    (db : Trainer.DB) (current_user : Z) (method : Trainer.Method)
    (member_id : Z) (form : Trainer.PlanForm)
    (db' : Trainer.DB) (response : Trainer.Response)
    (all_members : list Member) :
  Trainer.create_plan db current_user method member_id form
  = Ok (db', [(Trainer.msg_plan_created, "success")], response) ->
  Dashboard.dashboard all_members (Trainer.workout_plans db') current_user
  = (fun e =>
       if decide (Models.member_id (Dashboard.entry_member e) = member_id)
       then Dashboard.mkEntry (Dashboard.entry_member e) true
              (S (Dashboard.plan_count e))
       else e)
    <$> Dashboard.dashboard all_members (Trainer.workout_plans db) current_user.
Proof.
  intros Hrun. apply create_plan_stored in Hrun as (_ & _ & ->).
  cbn [Trainer.workout_plans]. unfold Dashboard.dashboard. cbv zeta.
  rewrite <- list_fmap_compose. apply list_fmap_ext. intros i member _.
  cbn [compose Dashboard.entry_member Dashboard.plan_count].
  rewrite !filter_app, fmap_app, list_to_set_app_L, length_app.
  rewrite (filter_cons (fun p => Trainer.wp_trainer_id p = current_user)).
  rewrite (filter_cons (fun p => Trainer.wp_member_id p = Models.member_id member
                                 /\ Trainer.wp_trainer_id p = current_user)).
  cbn [Trainer.wp_trainer_id Trainer.wp_member_id].
  rewrite (decide_True (P := current_user = current_user)) by reflexivity.
  rewrite !filter_nil.
  destruct (decide (Models.member_id member = member_id)) as [Heq|Hne].
  - rewrite decide_True by (split; [symmetry; exact Heq|reflexivity]).
    f_equal.
    + apply bool_decide_eq_true. apply elem_of_union. right.
      rewrite fmap_cons, fmap_nil, list_to_set_singleton.
      apply elem_of_singleton. exact Heq.
    + simpl. lia.
  - rewrite decide_False by (intros [Heq _]; apply Hne; symmetry; exact Heq).
    f_equal.
    + apply bool_decide_ext. rewrite elem_of_union.
      rewrite fmap_cons, fmap_nil, list_to_set_singleton, elem_of_singleton.
      tauto.
    + simpl. lia.
Qed.

Lemma create_plan_shows_on_dashboard_witness :
  Dashboard.dashboard [mkMember 1 None; mkMember 2 None]
    [Trainer.mkWorkoutPlan 1 9 "week" [Trainer.mkWorkoutDetail 5 3 "10" "monday"]] 9
  = [Dashboard.mkEntry (mkMember 1 None) true 1;
     Dashboard.mkEntry (mkMember 2 None) false 0].
Proof.
  refine (create_plan_shows_on_dashboard
            (Trainer.mkDB {[ 1%Z := mkMember 1 None ]}
               {[ 5%Z := Trainer.mkExercise "Squat" ]}
               {[ "max_training_days" := "6" ]} [])
            9 Trainer.POST 1
            (Trainer.mkPlanForm " week" ["5"] ["3"] ["10 "] ["monday"])
            (Trainer.mkDB {[ 1%Z := mkMember 1 None ]}
               {[ 5%Z := Trainer.mkExercise "Squat" ]}
               {[ "max_training_days" := "6" ]}
               [Trainer.mkWorkoutPlan 1 9 "week"
                  [Trainer.mkWorkoutDetail 5 3 "10" "monday"]])
            (Trainer.Redirect "trainer.dashboard")
            [mkMember 1 None; mkMember 2 None] _).
  vm_compute. reflexivity.
Defined.

Section PriceFacts.
Import FloatAxioms.

(** The price test [not price or price < 0] lets through the positive
    floats and the floats that are not numbers. *)
Lemma price_check (p : float) :
  (PrimFloat.eqb p 0 || PrimFloat.ltb p 0)%bool = false
  <-> PrimFloat.ltb 0 p = true \/ PrimFloat.is_nan p = true.
Proof.
  unfold is_nan. rewrite !eqb_spec, !ltb_spec.
  change (Prim2SF 0) with (S754_zero false).
  destruct (Prim2SF p) as [s|s| |s m e]; unfold SFeqb, SFltb, SFcompare;
    try destruct s; simpl;
    try change (PosDef.Pos.compare_cont Eq m m) with (Pos.compare m m);
    rewrite ?Z.compare_refl, ?Pos.compare_refl; simpl.
  all: split; [intros H; try discriminate H; auto
              |intros [H|H]; try discriminate H; auto].
Qed.
End PriceFacts.


Example nan_price_is_stored :
  (Admin.create_package []
     (Admin.mkPackageForm " Gold " (Some "12") (Some PrimFloat.nan) "")).1
  = [mkPackage "Gold" 12 PrimFloat.nan None].
Proof. vm_compute. reflexivity. Qed.
